(** * The integer maths demo of [main_integer.c]

    A shallow embedding of the liveness check built from
    [vCompeteingIntMathTask], [xAreIntegerMathsTaskStillRunning],
    [prvMonitorTask], [prvMonitorTimerCallback] and
    [vIntegerKeyboardInterruptHandler], and the properties of it that the
    design document of the demo states.

    File-scope and static variables, the kernel's task list and the console
    are the fields of one record, [system]; every C function is a function
    on that record.  An access outside [xTaskCheck] is undefined in C and is
    [None] here. *)

From Stdlib Require Import Ascii.
From stdpp Require Import base numbers option list strings pretty.

Local Open Scope Z_scope.

(** ** Machine integers *)

(** [long] and [BaseType_t] are 32 bits wide with the MSVC compiler of the
    Win32 port, two's complement. *)
Definition wrap_long (z : Z) : Z := (z + 2 ^ 31) mod 2 ^ 32 - 2 ^ 31.

Definition long_add (a b : Z) : Z := wrap_long (a + b).
Definition long_mul (a b : Z) : Z := wrap_long (a * b).

(** Division of signed integers truncates toward zero ([Z.quot]). *)
Definition long_div (a b : Z) : Z := wrap_long (a ÷ b).

(** [uint32_t] arithmetic is modulo [2 ^ 32]. *)
Definition uint32 (z : Z) : Z := z mod 2 ^ 32.

(** ** Constants *)

(** Modelled from the spec: [pdFALSE] and [pdTRUE] come from the kernel
    header [projdefs.h], which is not among the sources; they are the two
    truth values of a [BaseType_t], false being zero. *)
Definition pdFALSE : Z := 0.
Definition pdTRUE : Z := 1.

(** Modelled from the spec: [tskIDLE_PRIORITY] comes from the kernel header
    [task.h]; it is the lowest priority, and the file only adds to it. *)
Definition tskIDLE_PRIORITY : Z := 0.

Definition intgCONST1 : Z := wrap_long 123.
Definition intgCONST2 : Z := wrap_long 234567.
Definition intgCONST3 : Z := wrap_long (-3).
Definition intgCONST4 : Z := wrap_long 7.
Definition intgEXPECTED_ANSWER : Z :=
  long_div (long_mul (long_add intgCONST1 intgCONST2) intgCONST3) intgCONST4.

Definition intgNUMBER_OF_TASKS : nat := 1.

Definition mainMONITOR_TASK_PRIORITY : Z := tskIDLE_PRIORITY + 2.
Definition mainINTEGER_TASK_PRIORITY : Z := tskIDLE_PRIORITY + 1.

(** The period of the monitor timer, in milliseconds (the argument of
    [pdMS_TO_TICKS]). *)
Definition mainMONITOR_FREQUENCY_MS : Z := 2000.

Definition char_code (c : ascii) : Z := Z.of_N (N_of_ascii c).

Definition mainNO_KEY_PRESS_VALUE : Z := -1.
Definition mainSTATUS_KEY : Z := char_code "s".
Definition mainRESTART_KEY : Z := char_code "r".

(** ** Console text *)

Definition CRLF : string := String "013" (String "010" EmptyString).

(** [%c] *)
Definition fmt_c (k : Z) : string := String (ascii_of_N (Z.to_N k)) EmptyString.

(** [%lu] *)
Definition fmt_lu (n : Z) : string := pretty (Z.to_N n).

Definition banner : string :=
  CRLF +:+ "Starting the integer math demo. Press '" +:+ fmt_c mainSTATUS_KEY
       +:+ "' to display status, '" +:+ fmt_c mainRESTART_KEY
       +:+ "' to restart tasks." +:+ CRLF +:+ CRLF.

Definition pass_line (n : Z) : string :=
  "Message received from integer task - Status check #" +:+ fmt_lu n
    +:+ ": PASS" +:+ CRLF.

Definition fail_line (n : Z) : string :=
  "Message received from monitor timer - Status check #" +:+ fmt_lu n
    +:+ ": FAIL - Error detected!" +:+ CRLF.

Definition manual_line : string :=
  CRLF +:+ "Manual status check requested..." +:+ CRLF.

Definition restart_line : string :=
  CRLF +:+ "Restarting integer math tasks..." +:+ CRLF.

Definition restart_note : string :=
  "Note: Task restart requires system reset in this demo." +:+ CRLF +:+ CRLF.

(** ** The state of the program *)

(** The automatic variables of [vCompeteingIntMathTask] that outlive an
    iteration.  [pxTaskHasExecuted] points into [xTaskCheck]; it is kept as
    the index of the element.  [lValue] is assigned afresh at the start of
    every iteration and is local to [calculation] below. *)
Record int_math_locals := {
  sError : Z;
  pxTaskHasExecuted : nat
}.

(** The places at which [prvMonitorTask] can be found between two steps:
    polling the flag, about to reset it, about to check the maths tasks,
    and about to enter the critical section that counts and prints. *)
Inductive monitor_pc := AwaitRequest | ResetFlag | CheckTasks | Report.

Record monitor_locals := {
  pc : monitor_pc;
  xTasksStatus : Z
}.

Inductive task_locals :=
| IntMathLocals (l : int_math_locals)
| MonitorLocals (m : monitor_locals).

(** A task created with [xTaskCreate]: the name, the priority, and the
    function it runs together with that function's variables. *)
Record task := {
  pcName : string;
  uxPriority : Z;
  locals : task_locals
}.

Record timer := {
  pcTimerName : string;
  xTimerPeriodMs : Z;
  xAutoReload : Z;
  xActive : bool
}.

Record system := {
  xTaskCheck : list Z;
  xMonitorTimer : option timer;
  xPerformStatusCheck : Z;
  ulStatusCheckCount : Z;
  tasks : list task;
  console : list string
}.

Definition set_xTaskCheck (v : list Z) (s : system) : system :=
  {| xTaskCheck := v; xMonitorTimer := xMonitorTimer s;
     xPerformStatusCheck := xPerformStatusCheck s;
     ulStatusCheckCount := ulStatusCheckCount s;
     tasks := tasks s; console := console s |}.

Definition set_xMonitorTimer (v : option timer) (s : system) : system :=
  {| xTaskCheck := xTaskCheck s; xMonitorTimer := v;
     xPerformStatusCheck := xPerformStatusCheck s;
     ulStatusCheckCount := ulStatusCheckCount s;
     tasks := tasks s; console := console s |}.

Definition set_xPerformStatusCheck (v : Z) (s : system) : system :=
  {| xTaskCheck := xTaskCheck s; xMonitorTimer := xMonitorTimer s;
     xPerformStatusCheck := v;
     ulStatusCheckCount := ulStatusCheckCount s;
     tasks := tasks s; console := console s |}.

Definition set_ulStatusCheckCount (v : Z) (s : system) : system :=
  {| xTaskCheck := xTaskCheck s; xMonitorTimer := xMonitorTimer s;
     xPerformStatusCheck := xPerformStatusCheck s;
     ulStatusCheckCount := v;
     tasks := tasks s; console := console s |}.

Definition set_tasks (v : list task) (s : system) : system :=
  {| xTaskCheck := xTaskCheck s; xMonitorTimer := xMonitorTimer s;
     xPerformStatusCheck := xPerformStatusCheck s;
     ulStatusCheckCount := ulStatusCheckCount s;
     tasks := v; console := console s |}.

(** One call of [printf] appends one entry to the console. *)
Definition printf (text : string) (s : system) : system :=
  {| xTaskCheck := xTaskCheck s; xMonitorTimer := xMonitorTimer s;
     xPerformStatusCheck := xPerformStatusCheck s;
     ulStatusCheckCount := ulStatusCheckCount s;
     tasks := tasks s; console := console s ++ [text] |}.

(** [xTaskCreate], always granted the memory it asks for. *)
Definition xTaskCreate (name : string) (prio : Z) (l : task_locals)
    (s : system) : system :=
  set_tasks (tasks s ++ [{| pcName := name; uxPriority := prio; locals := l |}]) s.

(** ** The integer maths tasks *)

(** [for (sTask = 0; sTask < intgNUMBER_OF_TASKS; sTask++) xTaskCreate(...)],
    with [todo] iterations left. *)
Fixpoint start_loop (todo : nat) (sTask : nat) (uxPrio : Z) (s : system) : system :=
  match todo with
  | O => s
  | S todo' =>
      start_loop todo' (S sTask) uxPrio
        (xTaskCreate "IntMath" uxPrio
           (IntMathLocals {| sError := pdFALSE; pxTaskHasExecuted := sTask |}) s)
  end.

Definition vStartIntegerMathTasks (uxPrio : Z) (s : system) : system :=
  start_loop intgNUMBER_OF_TASKS 0 uxPrio s.

(** The calculation of one iteration.  [ctx] is what the context switches
    taken in the middle of the calculation do to the partial value held in
    registers; a port that saves and restores them correctly has the
    identity here. *)
Definition calculation (ctx : Z -> Z) : Z :=
  let lValue := intgCONST1 in
  let lValue := long_add lValue intgCONST2 in
  let lValue := ctx lValue in
  let lValue := long_mul lValue intgCONST3 in
  let lValue := long_div lValue intgCONST4 in
  lValue.

(** [*pxTaskHasExecuted = pdTRUE] inside the critical section. *)
Definition signal (slot : nat) (s : system) : option system :=
  if decide (slot < length (xTaskCheck s))%nat
  then Some (set_xTaskCheck (<[slot := pdTRUE]> (xTaskCheck s)) s)
  else None.

(** One turn of the [for (;;)] loop of [vCompeteingIntMathTask]. *)
Definition vCompeteingIntMathTask (ctx : Z -> Z) (l : int_math_locals)
    (s : system) : option (int_math_locals * system) :=
  let lValue := calculation ctx in
  let sError' := if decide (lValue <> intgEXPECTED_ANSWER) then pdTRUE else sError l in
  let l' := {| sError := sError'; pxTaskHasExecuted := pxTaskHasExecuted l |} in
  if decide (sError' = pdFALSE)
  then s' ← signal (pxTaskHasExecuted l) s; Some (l', s')
  else Some (l', s).

(** The loop of [xAreIntegerMathsTaskStillRunning], with [todo] iterations
    left, on the array [chk]. *)
Fixpoint check_loop (todo : nat) (sTask : nat) (xReturn : Z) (chk : list Z)
    : option (Z * list Z) :=
  match todo with
  | O => Some (xReturn, chk)
  | S todo' =>
      v ← chk !! sTask;
      let xReturn := if decide (v = pdFALSE) then pdFALSE else xReturn in
      check_loop todo' (S sTask) xReturn (<[sTask := pdFALSE]> chk)
  end.

Definition xAreIntegerMathsTaskStillRunning (s : system) : option (Z * system) :=
  '(xReturn, chk) ← check_loop intgNUMBER_OF_TASKS 0 pdTRUE (xTaskCheck s);
  Some (xReturn, set_xTaskCheck chk s).

(** ** The monitor *)

(** The static initialisers of the file. *)
Definition boot : system :=
  {| xTaskCheck := replicate intgNUMBER_OF_TASKS pdFALSE;
     xMonitorTimer := None;
     xPerformStatusCheck := pdFALSE;
     ulStatusCheckCount := 0;
     tasks := [];
     console := [] |}.

(** [xTimerStart] on the timer the handle points to. *)
Definition xTimerStart (s : system) : system :=
  match xMonitorTimer s with
  | Some tm =>
      set_xMonitorTimer
        (Some {| pcTimerName := pcTimerName tm; xTimerPeriodMs := xTimerPeriodMs tm;
                 xAutoReload := xAutoReload tm; xActive := true |}) s
  | None => s
  end.

(** [xTimerCreate]: a handle to a new timer that is not running yet, or
    NULL when the kernel has no memory left for it ([granted] false). *)
Definition xTimerCreate (granted : bool) (name : string) (period_ms : Z)
    (autoreload : Z) : option timer :=
  if granted
  then Some {| pcTimerName := name; xTimerPeriodMs := period_ms;
               xAutoReload := autoreload; xActive := false |}
  else None.

(** [main_integer] up to [vTaskStartScheduler], for either answer of
    [xTimerCreate]; from there on the tasks, the timer and the keyboard
    drive the program (see [step]).  The value of [xTasksStatus] is not
    determined before the monitor assigns it. *)
Definition main_integer_with (timer_granted : bool) (s : system) : system :=
  let s := printf banner s in
  let s := vStartIntegerMathTasks mainINTEGER_TASK_PRIORITY s in
  let s := xTaskCreate "Monitor" mainMONITOR_TASK_PRIORITY
             (MonitorLocals {| pc := AwaitRequest; xTasksStatus := 0 |}) s in
  let s := set_xMonitorTimer
             (xTimerCreate timer_granted "MonitorTimer"
                mainMONITOR_FREQUENCY_MS pdTRUE) s in
  if xMonitorTimer s is Some _ then xTimerStart s else s.

(** The start-up in which the kernel grants the timer; the runs of the
    statements below start from it. *)
Definition main_integer (s : system) : system := main_integer_with true s.

(** One step of [prvMonitorTask]: a poll of the flag (with the delay when it
    is clear), the reset of the flag, the call of the check, or the critical
    section with the count and the message. *)
Definition prvMonitorTask (m : monitor_locals) (s : system)
    : option (monitor_locals * system) :=
  match pc m with
  | AwaitRequest =>
      if decide (xPerformStatusCheck s = pdFALSE)
      then Some (m, s)
      else Some ({| pc := ResetFlag; xTasksStatus := xTasksStatus m |}, s)
  | ResetFlag =>
      Some ({| pc := CheckTasks; xTasksStatus := xTasksStatus m |},
            set_xPerformStatusCheck pdFALSE s)
  | CheckTasks =>
      '(r, s') ← xAreIntegerMathsTaskStillRunning s;
      Some ({| pc := Report; xTasksStatus := r |}, s')
  | Report =>
      let s := set_ulStatusCheckCount (uint32 (ulStatusCheckCount s + 1)) s in
      let s := if decide (xTasksStatus m = pdTRUE)
               then printf (pass_line (ulStatusCheckCount s)) s
               else printf (fail_line (ulStatusCheckCount s)) s in
      Some ({| pc := AwaitRequest; xTasksStatus := xTasksStatus m |}, s)
  end.

Definition prvMonitorTimerCallback (s : system) : system :=
  set_xPerformStatusCheck pdTRUE s.

Definition vIntegerKeyboardInterruptHandler (xKeyPressed : Z) (s : system) : system :=
  if decide (xKeyPressed = mainSTATUS_KEY) then
    set_xPerformStatusCheck pdTRUE (printf manual_line s)
  else if decide (xKeyPressed = mainRESTART_KEY) then
    printf restart_note (printf restart_line s)
  else s.

(** ** The running program *)

(** What can happen once the scheduler runs: the scheduler lets task [t]
    take its next step ([ctx] is felt only by a task that holds a partial
    value, see [calculation]); the timer expires and the daemon task calls
    the callback; the keyboard task hands a key to the handler. *)
Inductive event :=
| RunTask (t : nat) (ctx : Z -> Z)
| TimerExpired
| KeyPressed (xKeyPressed : Z).

Definition set_locals (l : task_locals) (tk : task) : task :=
  {| pcName := pcName tk; uxPriority := uxPriority tk; locals := l |}.

(** The variables of task [t] as they are when the task leaves the
    processor. *)
Definition store_locals (t : nat) (tk : task) (l : task_locals) (s : system) : system :=
  set_tasks (<[t := set_locals l tk]> (tasks s)) s.

Definition run_task (t : nat) (ctx : Z -> Z) (s : system) : option system :=
  tk ← tasks s !! t;
  match locals tk with
  | IntMathLocals l =>
      '(l', s') ← vCompeteingIntMathTask ctx l s;
      Some (store_locals t tk (IntMathLocals l') s')
  | MonitorLocals m =>
      '(m', s') ← prvMonitorTask m s;
      Some (store_locals t tk (MonitorLocals m') s')
  end.

Definition step (e : event) (s : system) : option system :=
  match e with
  | RunTask t ctx => run_task t ctx s
  | TimerExpired => Some (prvMonitorTimerCallback s)
  | KeyPressed k => Some (vIntegerKeyboardInterruptHandler k s)
  end.

Fixpoint run (tr : list event) (s : system) : option system :=
  match tr with
  | [] => Some s
  | e :: tr' => s' ← step e s; run tr' s'
  end.

(** ** Reading the registry *)

(** A slot counts as checked in when it holds anything but [pdFALSE]. *)
Definition checked_in (v : Z) : bool := bool_decide (v <> pdFALSE).

(** The logical AND of [checked_in] over the slots. *)
Definition all_alive (chk : list Z) : bool := forallb checked_in chk.

Definition of_bool (b : bool) : Z := if b then pdTRUE else pdFALSE.

(** A sequence of [signal]s, one for each entry of [slots], in order. *)
Fixpoint signals (slots : list nat) (s : system) : option system :=
  match slots with
  | [] => Some s
  | i :: rest => s' ← signal i s; signals rest s'
  end.

(** The registry has one slot for each integer maths task. *)
Definition registry_ok (s : system) : Prop :=
  length (xTaskCheck s) = intgNUMBER_OF_TASKS.

Global Instance registry_ok_dec s : Decision (registry_ok s).
Proof. unfold registry_ok. apply _. Defined.

(** ** Vocabulary of the statements about the running program *)

(** [k] steps of the monitor on its own variables and the shared state. *)
Fixpoint monitor_run (k : nat) (m : monitor_locals) (s : system)
    : option (monitor_locals * system) :=
  match k with
  | O => Some (m, s)
  | S k' => '(m', s') ← prvMonitorTask m s; monitor_run k' m' s'
  end.

(** The two events that ask for a status check. *)
Definition is_request (e : event) : Prop :=
  e = TimerExpired \/ e = KeyPressed mainSTATUS_KEY.

(** What a request prints by itself. *)
Definition acknowledgement (e : event) : list string :=
  match e with
  | KeyPressed k => if decide (k = mainSTATUS_KEY) then [manual_line] else []
  | _ => []
  end.

(** The message of a status check, by its outcome. *)
Definition report_line (alive : bool) (n : Z) : string :=
  if alive then pass_line n else fail_line n.

Definition origin_integer_task : string := "Message received from integer task".
Definition origin_monitor_timer : string := "Message received from monitor timer".

(** A context switch that hands the partial value of the calculation back
    as it was. *)
Definition preserves_partial_value (ctx : Z -> Z) : Prop :=
  ctx (long_add intgCONST1 intgCONST2) = long_add intgCONST1 intgCONST2.

Definition uncorrupted (e : event) : Prop :=
  match e with
  | RunTask _ ctx => preserves_partial_value ctx
  | _ => True
  end.

(** The scheduler only runs one of the [n] tasks it has. *)
Definition scheduled (n : nat) (e : event) : Prop :=
  match e with
  | RunTask t _ => (t < n)%nat
  | _ => True
  end.

(** Task [t] is an integer maths task that owns slot [slot] and has, or has
    not, found an error so far. *)
Definition int_math_task (t slot : nat) (in_error : bool) (s : system) : Prop :=
  exists tk l, tasks s !! t = Some tk /\ locals tk = IntMathLocals l
    /\ pxTaskHasExecuted l = slot
    /\ bool_decide (sError l <> pdFALSE) = in_error.

(** Task [t] is the monitor, at [p]. *)
Definition monitor_task (t : nat) (p : monitor_pc) (s : system) : Prop :=
  exists tk m, tasks s !! t = Some tk /\ locals tk = MonitorLocals m /\ pc m = p.

(** Every integer maths task points into the registry and has found no
    error. *)
Definition healthy (s : system) : Prop :=
  registry_ok s
  /\ forall t tk l, tasks s !! t = Some tk -> locals tk = IntMathLocals l ->
       sError l = pdFALSE /\ (pxTaskHasExecuted l < intgNUMBER_OF_TASKS)%nat.

(** The shared state once a pending status check has been carried out:
    flag reset, slots cleared, count advanced, one message printed. *)
Definition status_check (s : system) : system :=
  let n := uint32 (ulStatusCheckCount s + 1) in
  printf (report_line (all_alive (xTaskCheck s)) n)
    (set_ulStatusCheckCount n
       (set_xTaskCheck (replicate intgNUMBER_OF_TASKS pdFALSE)
          (set_xPerformStatusCheck pdFALSE s))).

Definition monitor_at (p : monitor_pc) (status : Z) : task_locals :=
  MonitorLocals {| pc := p; xTasksStatus := status |}.

(** The timer expires and the monitor, task 1 of [main_integer], runs four
    steps; [check_cycles n] is [n] such rounds. *)
Definition check_cycle : list event :=
  TimerExpired :: replicate 4 (RunTask 1 id).

Fixpoint check_cycles (n : nat) : list event :=
  match n with
  | O => []
  | S n' => check_cycles n' ++ check_cycle
  end.

(** ** Vocabulary of the statements about start-up and whole runs *)

(** The task that [vStartIntegerMathTasks] creates for slot [sTask]. *)
Definition int_math_task_at (sTask : nat) (uxPrio : Z) : task :=
  {| pcName := "IntMath"; uxPriority := uxPrio;
     locals := IntMathLocals {| sError := pdFALSE; pxTaskHasExecuted := sTask |} |}.

(** The task that [main_integer] creates for the monitor. *)
Definition monitor_task_at_start : task :=
  {| pcName := "Monitor"; uxPriority := mainMONITOR_TASK_PRIORITY;
     locals := MonitorLocals {| pc := AwaitRequest; xTasksStatus := 0 |} |}.

(** The registry is in place and every integer maths task points into it. *)
Definition slots_ok (s : system) : Prop :=
  registry_ok s
  /\ forall t tk l, tasks s !! t = Some tk -> locals tk = IntMathLocals l ->
       (pxTaskHasExecuted l < intgNUMBER_OF_TASKS)%nat.

(** [tk'] is the task [tk] at a later time: same name, same priority, same
    function, and for an integer maths task the same slot. *)
Definition same_task (tk tk' : task) : Prop :=
  pcName tk' = pcName tk /\ uxPriority tk' = uxPriority tk
  /\ match locals tk, locals tk' with
     | IntMathLocals l, IntMathLocals l' => pxTaskHasExecuted l' = pxTaskHasExecuted l
     | MonitorLocals _, MonitorLocals _ => True
     | _, _ => False
     end.

(** The console lines that report a status check, and those among them
    that report a pass. *)
Definition is_report (line : string) : bool :=
  String.prefix "Message received from " line.

Definition is_pass (line : string) : bool :=
  String.prefix origin_integer_task line.

Definition count_reports (out : list string) : nat :=
  length (List.filter is_report out).

(** Every integer maths task has found an error. *)
Definition all_in_error (s : system) : Prop :=
  forall t tk l, tasks s !! t = Some tk -> locals tk = IntMathLocals l ->
    sError l <> pdFALSE.

(** No monitor is about to print a pass it has already decided on. *)
Definition no_pass_pending (s : system) : Prop :=
  forall t tk m, tasks s !! t = Some tk -> locals tk = MonitorLocals m ->
    pc m = Report -> xTasksStatus m <> pdTRUE.

(** No request is pending and every monitor polls. *)
Definition quiet (s : system) : Prop :=
  xPerformStatusCheck s = pdFALSE
  /\ forall t tk m, tasks s !! t = Some tk -> locals tk = MonitorLocals m ->
       pc m = AwaitRequest.

(** The events that are not a step of task [t]: steps of the other tasks,
    the timer, the keyboard. *)
Definition others (t : nat) (e : event) : Prop :=
  match e with
  | RunTask t' _ => t' <> t
  | _ => True
  end.

(** * Properties *)

(** Projections of updated records, without unfolding anything else. *)
Ltac fields :=
  cbn [xTaskCheck xMonitorTimer xPerformStatusCheck ulStatusCheckCount tasks
       console set_xTaskCheck set_xMonitorTimer set_xPerformStatusCheck
       set_ulStatusCheckCount set_tasks printf] in *.

(** ** Arithmetic *)

Lemma uint32_range z : 0 <= uint32 z < 2 ^ 32.
Proof. unfold uint32. apply Z.mod_pos_bound. lia. Qed.

Lemma uint32_succ_small c : 0 <= c < 2 ^ 32 - 1 -> uint32 (c + 1) = c + 1.
Proof. intros Hc. unfold uint32. apply Z.mod_small. lia. Qed.

(** ** The loop of the check *)

Lemma all_alive_Forall chk : all_alive chk = true <-> Forall (fun v => v <> pdFALSE) chk.
Proof.
  unfold all_alive. induction chk as [|v chk IH]; simpl.
  - split; [constructor | reflexivity].
  - rewrite andb_true_iff, IH, Forall_cons. unfold checked_in.
    rewrite bool_decide_eq_true. reflexivity.
Qed.

(** The loop started at [sTask] with the rest of the array ahead of it ANDs
    the slots it still visits into [xReturn] and leaves them all cleared. *)
Lemma check_loop_spec (todo sTask : nat) (xReturn : Z) (chk : list Z) :
  (sTask + todo)%nat = length chk ->
  check_loop todo sTask xReturn chk
  = Some (if all_alive (drop sTask chk) then xReturn else pdFALSE,
          take sTask chk ++ replicate todo pdFALSE).
Proof.
  revert sTask xReturn chk.
  induction todo as [|todo IH]; intros sTask xReturn chk Hlen; simpl.
  - rewrite drop_ge, take_ge by lia. simpl. by rewrite app_nil_r.
  - destruct (lookup_lt_is_Some_2 chk sTask) as [v Hv]; [lia|].
    rewrite Hv. simpl.
    rewrite IH by (rewrite length_insert; lia).
    rewrite drop_insert_lt by lia.
    rewrite (drop_S _ _ _ Hv).
    rewrite (take_S_r (<[sTask:=pdFALSE]> chk) sTask pdFALSE)
      by (apply list_lookup_insert_eq; lia).
    rewrite take_insert_ge by lia.
    rewrite <- app_assoc. simpl.
    f_equal. f_equal.
    unfold all_alive at 2. simpl. fold (all_alive (drop (S sTask) chk)).
    unfold checked_in.
    destruct (decide (v = pdFALSE)) as [->|Hne].
    + simpl. by destruct (all_alive _).
    + rewrite bool_decide_eq_true_2 by done. done.
Qed.

(** The check as a whole: what it returns and what it leaves behind. *)
Lemma check_spec (s : system) :
  registry_ok s ->
  xAreIntegerMathsTaskStillRunning s
  = Some (of_bool (all_alive (xTaskCheck s)),
          set_xTaskCheck (replicate intgNUMBER_OF_TASKS pdFALSE) s).
Proof.
  intros Hok. unfold xAreIntegerMathsTaskStillRunning.
  rewrite check_loop_spec by (rewrite Hok; lia).
  simpl. rewrite drop_0. by destruct (all_alive _).
Qed.

Lemma registry_ok_set_flag v s : registry_ok (set_xPerformStatusCheck v s) <-> registry_ok s.
Proof. reflexivity. Qed.

Lemma registry_ok_cleared s :
  registry_ok (set_xTaskCheck (replicate intgNUMBER_OF_TASKS pdFALSE) s).
Proof. unfold registry_ok. fields. apply length_replicate. Qed.

(** ** Signals *)

Lemma signal_Some slot s :
  (slot < length (xTaskCheck s))%nat ->
  signal slot s = Some (set_xTaskCheck (<[slot := pdTRUE]> (xTaskCheck s)) s).
Proof. intros Hlt. unfold signal. by rewrite decide_True. Qed.

Lemma signal_inv slot s s' :
  signal slot s = Some s' ->
  (slot < length (xTaskCheck s))%nat
  /\ s' = set_xTaskCheck (<[slot := pdTRUE]> (xTaskCheck s)) s.
Proof.
  unfold signal. intros H. destruct (decide _); [|done].
  by injection H as <-.
Qed.

(** A run of signals within the array succeeds; it sets exactly the slots
    it names and keeps the size of the array. *)
Lemma signals_spec (slots : list nat) (s : system) :
  Forall (fun i => (i < length (xTaskCheck s))%nat) slots ->
  exists s', signals slots s = Some s'
    /\ length (xTaskCheck s') = length (xTaskCheck s)
    /\ (forall i, i ∈ slots -> xTaskCheck s' !! i = Some pdTRUE)
    /\ (forall i, i ∉ slots -> xTaskCheck s' !! i = xTaskCheck s !! i).
Proof.
  revert s. induction slots as [|j slots IH]; intros s Hall.
  - exists s. split; [done|]. split; [done|]. split; [|done].
    intros i Hi. by apply elem_of_nil in Hi.
  - apply Forall_cons in Hall as [Hj Hall].
    simpl. rewrite (signal_Some _ _ Hj). simpl.
    set (s1 := set_xTaskCheck _ s).
    destruct (IH s1) as (s' & Hrun & Hlen & Hin & Hout).
    { subst s1. fields. by rewrite length_insert. }
    exists s'. split; [done|]. subst s1; fields.
    rewrite length_insert in Hlen. split; [done|]. split.
    + intros i Hi. destruct (decide (i ∈ slots)) as [?|Hni]; [by apply Hin|].
      apply elem_of_cons in Hi as [->|?]; [|done].
      rewrite Hout by done. by apply list_lookup_insert_eq.
    + intros i Hi. apply not_elem_of_cons in Hi as [Hne Hi].
      rewrite Hout by done. by apply list_lookup_insert_ne.
Qed.

(** ** Claims about the registry and the arithmetic *)

(** C1. On a registry with one slot per task the check returns the logical
    AND of the slots (true exactly when no slot holds [pdFALSE]) and leaves
    every slot cleared, whatever it returns; nothing else changes.  Hence
    the next check, after any signals in between, returns true exactly when
    every slot was signalled in between. *)
Theorem C1_sweep_is_and_then_clear (s : system) :
  registry_ok s ->
  exists s',
    xAreIntegerMathsTaskStillRunning s
      = Some (of_bool (all_alive (xTaskCheck s)), s')
    /\ (of_bool (all_alive (xTaskCheck s)) = pdTRUE
        <-> forall i v, xTaskCheck s !! i = Some v -> v <> pdFALSE)
    /\ s' = set_xTaskCheck (replicate intgNUMBER_OF_TASKS pdFALSE) s
    /\ (forall i, (i < intgNUMBER_OF_TASKS)%nat -> xTaskCheck s' !! i = Some pdFALSE)
    /\ forall slots : list nat,
         Forall (fun i => (i < intgNUMBER_OF_TASKS)%nat) slots ->
         exists s1 r s2,
           signals slots s' = Some s1
           /\ xAreIntegerMathsTaskStillRunning s1 = Some (r, s2)
           /\ (r = pdTRUE \/ r = pdFALSE)
           /\ (r = pdTRUE <-> forall i, (i < intgNUMBER_OF_TASKS)%nat -> i ∈ slots)
           /\ xTaskCheck s2 = replicate intgNUMBER_OF_TASKS pdFALSE.
Proof.
  intros Hok. eexists. split; [by apply check_spec|].
  split.
  { destruct (all_alive (xTaskCheck s)) eqn:Ha; simpl.
    - split; [|done]. intros _ i v Hi.
      apply all_alive_Forall in Ha. by apply (proj1 (Forall_lookup _ _) Ha i).
    - split; [done|]. intros Hall. exfalso.
      assert (all_alive (xTaskCheck s) = true) as Ht; [|congruence].
      apply all_alive_Forall, Forall_lookup. exact Hall. }
  split; [done|]. split.
  { intros i Hi. fields. by apply lookup_replicate_2. }
  intros slots Hslots.
  set (s' := set_xTaskCheck _ s).
  destruct (signals_spec slots s') as (s1 & Hrun & Hlen & Hin & Hout).
  { subst s'. fields. by rewrite length_replicate. }
  assert (registry_ok s1) as Hok1.
  { unfold registry_ok. rewrite Hlen. subst s'. fields. apply length_replicate. }
  exists s1, (of_bool (all_alive (xTaskCheck s1))),
    (set_xTaskCheck (replicate intgNUMBER_OF_TASKS pdFALSE) s1).
  split; [done|]. split; [by apply check_spec|].
  split; [destruct (all_alive _); auto|].
  split; [|done].
  destruct (all_alive (xTaskCheck s1)) eqn:Ha; simpl.
  - split; [|done]. intros _ i Hi.
    destruct (decide (i ∈ slots)) as [|Hni]; [done|]. exfalso.
    apply all_alive_Forall in Ha.
    assert (xTaskCheck s1 !! i = Some pdFALSE) as Hlk.
    { rewrite Hout by done. subst s'. fields. by apply lookup_replicate_2. }
    by apply (proj1 (Forall_lookup _ _) Ha i _ Hlk).
  - split; [done|]. intros Hall. exfalso.
    assert (all_alive (xTaskCheck s1) = true) as Ht; [|congruence].
    apply all_alive_Forall, Forall_lookup. intros i v Hlk.
    assert (i < intgNUMBER_OF_TASKS)%nat as Hi.
    { apply lookup_lt_Some in Hlk. by rewrite Hok1 in Hlk. }
    rewrite (Hin i (Hall i Hi)) in Hlk. by injection Hlk as <-.
Qed.

Lemma C1_sweep_is_and_then_clear_witness :
  exists s',
    xAreIntegerMathsTaskStillRunning (main_integer boot)
      = Some (of_bool (all_alive (xTaskCheck (main_integer boot))), s').
Proof.
  destruct (C1_sweep_is_and_then_clear (main_integer boot)) as (s' & H & _).
  - reflexivity.
  - exists s'. exact H.
Defined.

(** C3, as amended.  With the operands 123, 234567, -3 and 7, added,
    multiplied and divided from left to right, the division truncating
    toward zero, the expected answer is -100581; no step leaves the range
    of a [long]. *)
Theorem C3_expected_answer_value :
  intgEXPECTED_ANSWER = -100581
  /\ intgEXPECTED_ANSWER = ((123 + 234567) * -3) ÷ 7.
Proof. split; reflexivity. Qed.

(** C3, as stated, fails: the expected answer is not -100537, neither as
    the macro computes it nor as the formula over the integers. *)
Lemma C3_expected_answer_is_not_100537 :
  intgEXPECTED_ANSWER <> -100537 /\ ((123 + 234567) * -3) ÷ 7 <> -100537.
Proof. split; discriminate. Qed.

(** C6.  When every slot is set (and there is a slot: one per task), the
    check returns true and a second check right after it returns false. *)
Theorem C6_sweep_twice (s : system) :
  registry_ok s ->
  (forall i v, xTaskCheck s !! i = Some v -> v <> pdFALSE) ->
  exists s1 s2,
    xAreIntegerMathsTaskStillRunning s = Some (pdTRUE, s1)
    /\ xAreIntegerMathsTaskStillRunning s1 = Some (pdFALSE, s2).
Proof.
  intros Hok Hset.
  exists (set_xTaskCheck (replicate intgNUMBER_OF_TASKS pdFALSE) s).
  eexists. split.
  - rewrite check_spec by done.
    assert (all_alive (xTaskCheck s) = true) as ->; [|done].
    by apply all_alive_Forall, Forall_lookup.
  - rewrite check_spec by apply registry_ok_cleared. reflexivity.
Qed.

Lemma C6_sweep_twice_witness :
  exists s1 s2,
    xAreIntegerMathsTaskStillRunning (set_xTaskCheck [pdTRUE] boot) = Some (pdTRUE, s1)
    /\ xAreIntegerMathsTaskStillRunning s1 = Some (pdFALSE, s2).
Proof.
  apply (C6_sweep_twice (set_xTaskCheck [pdTRUE] boot)).
  - reflexivity.
  - intros i v Hlk. destruct i as [|i]; simpl in Hlk; [|done].
    injection Hlk as <-. discriminate.
Defined.

(** ** The monitor, step by step *)

Lemma check_tasks s r s' :
  xAreIntegerMathsTaskStillRunning s = Some (r, s') -> tasks s' = tasks s.
Proof.
  unfold xAreIntegerMathsTaskStillRunning. intros H.
  destruct (check_loop _ _ _ _) as [[x chk]|]; [|done].
  simpl in H. by injection H as _ <-.
Qed.

Lemma check_frame v s :
  xAreIntegerMathsTaskStillRunning (set_tasks v s)
  = prod_map id (set_tasks v) <$> xAreIntegerMathsTaskStillRunning s.
Proof.
  unfold xAreIntegerMathsTaskStillRunning. fields.
  by destruct (check_loop _ _ _ _) as [[x chk]|].
Qed.

Lemma prvMonitorTask_tasks m s m' s' :
  prvMonitorTask m s = Some (m', s') -> tasks s' = tasks s.
Proof.
  unfold prvMonitorTask. intros H. destruct (pc m).
  - destruct (decide _); by injection H as _ <-.
  - by injection H as _ <-.
  - destruct (xAreIntegerMathsTaskStillRunning s) as [[r s1]|] eqn:Hc; [|done].
    simpl in H. injection H as _ <-. by eapply check_tasks.
  - injection H as _ <-. by destruct (decide _).
Qed.

(** The monitor neither reads nor writes the task list. *)
Lemma prvMonitorTask_frame m v s :
  prvMonitorTask m (set_tasks v s)
  = prod_map id (set_tasks v) <$> prvMonitorTask m s.
Proof.
  unfold prvMonitorTask. destruct (pc m); fields.
  - by destruct (decide _).
  - done.
  - rewrite check_frame.
    by destruct (xAreIntegerMathsTaskStillRunning s) as [[r s1]|].
  - by destruct (decide _).
Qed.

Lemma monitor_run_tasks k m s m' s' :
  monitor_run k m s = Some (m', s') -> tasks s' = tasks s.
Proof.
  revert m s. induction k as [|k IH]; intros m s H; simpl in H.
  - by injection H as _ <-.
  - destruct (prvMonitorTask m s) as [[m1 s1]|] eqn:H1; [|done]. simpl in H.
    rewrite (IH _ _ H). by eapply prvMonitorTask_tasks.
Qed.

Lemma monitor_run_frame k m v s :
  monitor_run k m (set_tasks v s)
  = prod_map id (set_tasks v) <$> monitor_run k m s.
Proof.
  revert m s. induction k as [|k IH]; intros m s; simpl; [done|].
  rewrite prvMonitorTask_frame.
  destruct (prvMonitorTask m s) as [[m1 s1]|]; [|done]. simpl. apply IH.
Qed.

Lemma monitor_run_app j k m s :
  monitor_run (j + k) m s = '(m', s') ← monitor_run j m s; monitor_run k m' s'.
Proof.
  revert m s. induction j as [|j IH]; intros m s; simpl; [done|].
  destruct (prvMonitorTask m s) as [[m1 s1]|]; [|done]. simpl. apply IH.
Qed.

Lemma store_locals_id t tk s :
  tasks s !! t = Some tk -> store_locals t tk (locals tk) s = s.
Proof.
  intros Hlk. unfold store_locals, set_locals. destruct tk, s. fields. simpl.
  unfold set_tasks. fields. f_equal. by apply list_insert_id.
Qed.

Lemma store_locals_twice t tk l1 l2 v s :
  store_locals t (set_locals l1 tk) l2 (set_tasks (<[t := set_locals l1 tk]> v) s)
  = set_tasks (<[t := set_locals l2 tk]> v) s.
Proof.
  unfold store_locals, set_tasks. fields. f_equal.
  by rewrite list_insert_insert_eq.
Qed.

(** Steps of the monitor task in the running program are the steps of
    [prvMonitorTask], with the monitor's variables stored back. *)
Lemma run_monitor (k : nat) (t : nat) (ctx : Z -> Z) :
  forall s tk m m' s',
    tasks s !! t = Some tk -> locals tk = MonitorLocals m ->
    monitor_run k m s = Some (m', s') ->
    run (replicate k (RunTask t ctx)) s
    = Some (store_locals t tk (MonitorLocals m') s').
Proof.
  induction k as [|k IH]; intros s tk m m' s' Hlk Hloc Hrun; simpl in *.
  - injection Hrun as <- <-. rewrite <- Hloc. by rewrite store_locals_id.
  - destruct (prvMonitorTask m s) as [[m1 s1]|] eqn:H1; [|done]. simpl in Hrun.
    unfold run_task. rewrite Hlk. simpl. rewrite Hloc, H1. simpl.
    pose proof (prvMonitorTask_tasks _ _ _ _ H1) as Ht1.
    pose proof (monitor_run_tasks _ _ _ _ _ Hrun) as Ht'.
    rewrite (IH _ (set_locals (MonitorLocals m1) tk) m1 m'
               (set_tasks (tasks (store_locals t tk (MonitorLocals m1) s1)) s')).
    + f_equal. unfold store_locals at 2. fields.
      rewrite store_locals_twice. unfold store_locals. by rewrite Ht'.
    + unfold store_locals. fields. apply list_lookup_insert_eq.
      rewrite Ht1. by eapply lookup_lt_Some.
    + done.
    + unfold store_locals at 1. rewrite monitor_run_frame, Hrun. done.
Qed.

Lemma run_app tr1 tr2 s : run (tr1 ++ tr2) s = s' ← run tr1 s; run tr2 s'.
Proof.
  revert s. induction tr1 as [|e tr1 IH]; intros s; simpl; [done|].
  destruct (step e s) as [s1|]; [|done]. simpl. apply IH.
Qed.

Lemma monitor_poll_go m s :
  pc m = AwaitRequest -> xPerformStatusCheck s <> pdFALSE ->
  prvMonitorTask m s
  = Some ({| pc := ResetFlag; xTasksStatus := xTasksStatus m |}, s).
Proof. intros Hpc Hflag. unfold prvMonitorTask. rewrite Hpc. by rewrite decide_False. Qed.

Lemma monitor_idle k m s :
  pc m = AwaitRequest -> xPerformStatusCheck s = pdFALSE ->
  monitor_run k m s = Some (m, s).
Proof.
  intros Hpc Hflag. induction k as [|k IH]; simpl; [done|].
  unfold prvMonitorTask. rewrite Hpc. rewrite decide_True by done. simpl. exact IH.
Qed.

(** From the reset of the flag on, three steps carry out the check. *)
Lemma monitor_from_reset m s :
  registry_ok s -> pc m = ResetFlag ->
  monitor_run 1 m s
    = Some ({| pc := CheckTasks; xTasksStatus := xTasksStatus m |},
            set_xPerformStatusCheck pdFALSE s)
  /\ monitor_run 2 m s
    = Some ({| pc := Report; xTasksStatus := of_bool (all_alive (xTaskCheck s)) |},
            set_xTaskCheck (replicate intgNUMBER_OF_TASKS pdFALSE)
              (set_xPerformStatusCheck pdFALSE s))
  /\ monitor_run 3 m s
    = Some ({| pc := AwaitRequest; xTasksStatus := of_bool (all_alive (xTaskCheck s)) |},
            status_check s).
Proof.
  intros Hok Hpc.
  assert (prvMonitorTask m s
          = Some ({| pc := CheckTasks; xTasksStatus := xTasksStatus m |},
                  set_xPerformStatusCheck pdFALSE s)) as H1.
  { unfold prvMonitorTask. by rewrite Hpc. }
  assert (forall st, prvMonitorTask {| pc := CheckTasks; xTasksStatus := st |}
                       (set_xPerformStatusCheck pdFALSE s)
          = Some ({| pc := Report; xTasksStatus := of_bool (all_alive (xTaskCheck s)) |},
                  set_xTaskCheck (replicate intgNUMBER_OF_TASKS pdFALSE)
                    (set_xPerformStatusCheck pdFALSE s))) as H2.
  { intros st. unfold prvMonitorTask. cbn [pc].
    rewrite check_spec by (by apply registry_ok_set_flag). done. }
  split; [|split].
  - cbn [monitor_run]. rewrite H1. done.
  - cbn [monitor_run]. rewrite H1. cbn [mbind option_bind]. rewrite H2. done.
  - cbn [monitor_run]. rewrite H1. cbn [mbind option_bind]. rewrite H2.
    cbn [mbind option_bind]. unfold prvMonitorTask. cbn [pc xTasksStatus].
    unfold status_check, report_line.
    destruct (all_alive (xTaskCheck s)); reflexivity.
Qed.

(** Once a request is seen, the monitor carries out one check and then
    polls a clear flag for as long as it is left alone. *)
Lemma monitor_settles k m s :
  registry_ok s ->
  (pc m = AwaitRequest /\ xPerformStatusCheck s <> pdFALSE /\ (4 <= k)%nat)
  \/ (pc m = ResetFlag /\ (3 <= k)%nat) ->
  monitor_run k m s
  = Some ({| pc := AwaitRequest; xTasksStatus := of_bool (all_alive (xTaskCheck s)) |},
          status_check s).
Proof.
  intros Hok [(Hpc & Hflag & Hk)|(Hpc & Hk)].
  - replace k with (1 + (3 + (k - 4)))%nat by lia.
    rewrite (monitor_run_app 1).
    assert (monitor_run 1 m s
            = Some ({| pc := ResetFlag; xTasksStatus := xTasksStatus m |}, s)) as ->.
    { cbn [monitor_run]. by rewrite monitor_poll_go. }
    cbn [mbind option_bind].
    rewrite (monitor_run_app 3).
    destruct (monitor_from_reset {| pc := ResetFlag; xTasksStatus := xTasksStatus m |} s)
      as (_ & _ & ->); [done..|].
    cbn [mbind option_bind]. by apply monitor_idle.
  - replace k with (3 + (k - 3))%nat by lia.
    rewrite monitor_run_app.
    destruct (monitor_from_reset m s) as (_ & _ & ->); [done..|].
    cbn [mbind option_bind]. by apply monitor_idle.
Qed.

(** What a request does: it sets the flag and prints its acknowledgement. *)
Lemma request_step e s :
  is_request e ->
  exists s', step e s = Some s'
    /\ xPerformStatusCheck s' = pdTRUE
    /\ console s' = console s ++ acknowledgement e
    /\ xTaskCheck s' = xTaskCheck s
    /\ ulStatusCheckCount s' = ulStatusCheckCount s
    /\ tasks s' = tasks s.
Proof.
  intros [->| ->]; eexists; (split; [reflexivity|]); fields; simpl.
  - by rewrite app_nil_r.
  - done.
Qed.

(** ** Claims about the monitor *)

(** Left alone, the monitor consumes a request it has seen in four steps:
    the flag is seen, the flag is reset, the maths tasks are checked (which
    clears the slots), and the count advances by one modulo 2^32 with one
    message printed; the monitor is then back at polling the flag. *)
Lemma checking_steps_alone
    (s : system) (t : nat) (tk : task) (m : monitor_locals) (ctx : Z -> Z) :
  registry_ok s ->
  tasks s !! t = Some tk -> locals tk = MonitorLocals m ->
  pc m = AwaitRequest -> xPerformStatusCheck s <> pdFALSE ->
  let alive := all_alive (xTaskCheck s) in
  let n := uint32 (ulStatusCheckCount s + 1) in
  let s1 := set_xPerformStatusCheck pdFALSE s in
  let s2 := set_xTaskCheck (replicate intgNUMBER_OF_TASKS pdFALSE) s1 in
  let s3 := printf (report_line alive n) (set_ulStatusCheckCount n s2) in
  run (replicate 1 (RunTask t ctx)) s
    = Some (store_locals t tk (monitor_at ResetFlag (xTasksStatus m)) s)
  /\ run (replicate 2 (RunTask t ctx)) s
    = Some (store_locals t tk (monitor_at CheckTasks (xTasksStatus m)) s1)
  /\ run (replicate 3 (RunTask t ctx)) s
    = Some (store_locals t tk (monitor_at Report (of_bool alive)) s2)
  /\ run (replicate 4 (RunTask t ctx)) s
    = Some (store_locals t tk (monitor_at AwaitRequest (of_bool alive)) s3)
  /\ (0 <= ulStatusCheckCount s < 4294967295 -> n = ulStatusCheckCount s + 1)
  /\ (ulStatusCheckCount s = 4294967295 -> n = 0).
Proof.
  intros Hok Hlk Hloc Hpc Hflag alive n s1 s2 s3.
  pose proof (monitor_poll_go m s Hpc Hflag) as H0.
  destruct (monitor_from_reset {| pc := ResetFlag; xTasksStatus := xTasksStatus m |} s)
    as (H1 & H2 & H3); [done..|].
  repeat split.
  - apply (run_monitor 1 t ctx s tk m); [done..|].
    cbn [monitor_run]. by rewrite H0.
  - apply (run_monitor 2 t ctx s tk m); [done..|].
    change 2%nat with (1 + 1)%nat. rewrite monitor_run_app.
    cbn [monitor_run Nat.add]. rewrite H0. cbn [mbind option_bind]. exact H1.
  - apply (run_monitor 3 t ctx s tk m); [done..|].
    change 3%nat with (1 + 2)%nat. rewrite monitor_run_app.
    cbn [monitor_run Nat.add]. rewrite H0. cbn [mbind option_bind]. exact H2.
  - apply (run_monitor 4 t ctx s tk m); [done..|].
    change 4%nat with (1 + 3)%nat. rewrite monitor_run_app.
    cbn [monitor_run Nat.add]. rewrite H0. cbn [mbind option_bind]. exact H3.
  - intros Hc. subst n. apply uint32_succ_small. lia.
  - intros Hc. subst n. rewrite Hc. reflexivity.
Qed.

(** C4, as stated, fails at the top of the range of the counter: the check
    that is consumed with the count at 4294967295 leaves it at 0, not one
    higher. *)
Lemma C4_count_wraps :
  let s := set_ulStatusCheckCount 4294967295
             (prvMonitorTimerCallback (main_integer boot)) in
  ulStatusCheckCount <$> run (replicate 4 (RunTask 1 id)) s = Some 0
  /\ ulStatusCheckCount <$> run (replicate 4 (RunTask 1 id)) s
     <> Some (ulStatusCheckCount s + 1).
Proof. split; [vm_compute; reflexivity | vm_compute; discriminate]. Qed.

(** After a request is seen and the monitor is left to run, the state is
    that of one status check, and the monitor polls again. *)
Lemma monitor_finishes (t : nat) (ctx : Z -> Z) (k : nat) s tk m :
  registry_ok s ->
  tasks s !! t = Some tk -> locals tk = MonitorLocals m ->
  (pc m = AwaitRequest /\ xPerformStatusCheck s <> pdFALSE /\ (4 <= k)%nat)
  \/ (pc m = ResetFlag /\ (3 <= k)%nat) ->
  exists s', run (replicate k (RunTask t ctx)) s = Some s'
    /\ ulStatusCheckCount s' = uint32 (ulStatusCheckCount s + 1)
    /\ console s'
       = console s ++ [report_line (all_alive (xTaskCheck s))
                         (uint32 (ulStatusCheckCount s + 1))]
    /\ xPerformStatusCheck s' = pdFALSE
    /\ xTaskCheck s' = replicate intgNUMBER_OF_TASKS pdFALSE
    /\ length (tasks s') = length (tasks s)
    /\ monitor_task t AwaitRequest s'.
Proof.
  intros Hok Hlk Hloc Hcase.
  eexists. split.
  { eapply run_monitor; [done..|]. by apply monitor_settles. }
  unfold store_locals, status_check. fields.
  do 4 (split; [reflexivity|]).
  split; [apply length_insert|].
  eexists _, _. split.
  { apply list_lookup_insert_eq. by eapply lookup_lt_Some. }
  split; reflexivity.
Qed.

(** C5, as amended.  Two requests, from the timer or the status key, that
    both come before the monitor resets the flag (the second one before or
    after the monitor has seen the first) lead to one status check: however
    long the monitor then runs, the count has advanced once (by one modulo
    2^32), one message has been printed after the acknowledgements, the
    flag is clear and the monitor polls. *)
Theorem C5_requests_conflate
    (s : system) (t : nat) (tk : task) (m : monitor_locals) (ctx : Z -> Z)
    (r1 r2 : event) (j k : nat) :
  registry_ok s ->
  tasks s !! t = Some tk -> locals tk = MonitorLocals m -> pc m = AwaitRequest ->
  is_request r1 -> is_request r2 ->
  (j <= 1)%nat -> (4 <= j + k)%nat ->
  exists s',
    run (r1 :: replicate j (RunTask t ctx) ++ r2 :: replicate k (RunTask t ctx)) s
      = Some s'
    /\ ulStatusCheckCount s' = uint32 (ulStatusCheckCount s + 1)
    /\ (0 <= ulStatusCheckCount s < 4294967295 ->
        ulStatusCheckCount s' = ulStatusCheckCount s + 1)
    /\ console s'
       = console s ++ acknowledgement r1 ++ acknowledgement r2
           ++ [report_line (all_alive (xTaskCheck s))
                 (uint32 (ulStatusCheckCount s + 1))]
    /\ xPerformStatusCheck s' = pdFALSE
    /\ monitor_task t AwaitRequest s'.
Proof.
  intros Hok Hlk Hloc Hpc Hr1 Hr2 Hj Hk.
  destruct (request_step r1 s Hr1) as (sa & Ha & Hfa & Hca & Hxa & Hna & Hta).
  cbn [run]. rewrite Ha. cbn [mbind option_bind]. rewrite run_app.
  assert (exists sb tkb mb,
    run (replicate j (RunTask t ctx)) sa = Some sb
    /\ tasks sb !! t = Some tkb /\ locals tkb = MonitorLocals mb
    /\ ((pc mb = AwaitRequest /\ (4 <= k)%nat) \/ (pc mb = ResetFlag /\ (3 <= k)%nat))
    /\ console sb = console sa /\ xTaskCheck sb = xTaskCheck sa
    /\ ulStatusCheckCount sb = ulStatusCheckCount sa) as Hmid.
  { destruct j as [|[|j]]; [| |lia].
    - exists sa, tk, m. rewrite Hta. repeat split; try done. left. split; [done|lia].
    - eexists _, _, _. split.
      { apply (run_monitor 1 t ctx sa tk m); [by rewrite Hta|done|].
        cbn [monitor_run]. rewrite monitor_poll_go; [done..|].
        rewrite Hfa. discriminate. }
      unfold store_locals. fields. split.
      { apply list_lookup_insert_eq. rewrite Hta. by eapply lookup_lt_Some. }
      split; [reflexivity|]. split; [|done]. right. split; [done|lia]. }
  destruct Hmid as (sb & tkb & mb & -> & Hlkb & Hlocb & Hcase & Hcb & Hxb & Hnb).
  cbn [mbind option_bind run].
  destruct (request_step r2 sb Hr2) as (sc & Hc & Hfc & Hcc & Hxc & Hnc & Htc).
  rewrite Hc. cbn [mbind option_bind].
  destruct (monitor_finishes t ctx k sc tkb mb)
    as (s' & Hrun & Hn' & Hc' & Hf' & _ & _ & Hm').
  { unfold registry_ok. rewrite Hxc, Hxb, Hxa. exact Hok. }
  { by rewrite Htc. }
  { done. }
  { destruct Hcase as [[? ?]|[? ?]]; [left|right]; repeat split; try done.
    rewrite Hfc. discriminate. }
  exists s'. split; [done|].
  rewrite Hn', Hc', Hnc, Hnb, Hna, Hcc, Hcb, Hca, Hxc, Hxb, Hxa.
  split; [done|]. split; [intros Hc0; apply uint32_succ_small; lia|].
  split; [by rewrite <- !app_assoc|]. done.
Qed.

Lemma C5_requests_conflate_witness :
  exists s',
    run (KeyPressed mainSTATUS_KEY
           :: replicate 1 (RunTask 1 id) ++ TimerExpired :: replicate 5 (RunTask 1 id))
        (main_integer boot)
    = Some s'
    /\ ulStatusCheckCount s' = 1.
Proof.
  destruct (C5_requests_conflate (main_integer boot) 1
              {| pcName := "Monitor"; uxPriority := mainMONITOR_TASK_PRIORITY;
                 locals := monitor_at AwaitRequest 0 |}
              {| pc := AwaitRequest; xTasksStatus := 0 |} id
              (KeyPressed mainSTATUS_KEY) TimerExpired 1 5)
    as (s' & Hrun & Hn & _).
  - reflexivity.
  - reflexivity.
  - reflexivity.
  - reflexivity.
  - right. reflexivity.
  - left. reflexivity.
  - lia.
  - lia.
  - exists s'. split; [exact Hrun | exact Hn].
Defined.

(** C5, as stated, fails at the top of the range of the counter: two
    requests conflate into one check there as well, but that check takes
    the count from 4294967295 to 0. *)
Lemma C5_count_wraps :
  let s := set_ulStatusCheckCount 4294967295 (main_integer boot) in
  let tr := KeyPressed mainSTATUS_KEY :: KeyPressed mainSTATUS_KEY
              :: replicate 6 (RunTask 1 id) in
  ulStatusCheckCount <$> run tr s = Some 0
  /\ ulStatusCheckCount <$> run tr s <> Some (ulStatusCheckCount s + 1).
Proof. split; [vm_compute; reflexivity | vm_compute; discriminate]. Qed.

Lemma pass_line_origin n : String.prefix origin_integer_task (pass_line n) = true.
Proof. reflexivity. Qed.

Lemma fail_line_origin n : String.prefix origin_monitor_timer (fail_line n) = true.
Proof. reflexivity. Qed.

(** A request of either kind followed by four steps of the monitor alone:
    the message starts with the wording that goes with the outcome of the
    check. *)
Lemma origin_after_request_alone
    (s : system) (t : nat) (tk : task) (m : monitor_locals) (ctx : Z -> Z)
    (req : event) :
  registry_ok s ->
  tasks s !! t = Some tk -> locals tk = MonitorLocals m -> pc m = AwaitRequest ->
  is_request req ->
  exists s' line,
    run (req :: replicate 4 (RunTask t ctx)) s = Some s'
    /\ console s' = console s ++ acknowledgement req ++ [line]
    /\ (all_alive (xTaskCheck s) = true ->
        line = pass_line (ulStatusCheckCount s')
        /\ String.prefix origin_integer_task line = true)
    /\ (all_alive (xTaskCheck s) = false ->
        line = fail_line (ulStatusCheckCount s')
        /\ String.prefix origin_monitor_timer line = true).
Proof.
  intros Hok Hlk Hloc Hpc Hreq.
  destruct (request_step req s Hreq) as (sa & Ha & Hfa & Hca & Hxa & Hna & Hta).
  destruct (monitor_finishes t ctx 4 sa tk m)
    as (s' & Hrun & Hn' & Hc' & _); [| |done| |].
  { unfold registry_ok. by rewrite Hxa. }
  { by rewrite Hta. }
  { left. split; [done|]. split; [|lia]. rewrite Hfa. discriminate. }
  exists s', (report_line (all_alive (xTaskCheck s)) (ulStatusCheckCount s')).
  split; [cbn [run]; rewrite Ha; exact Hrun|].
  split; [rewrite Hc', Hn', Hca, Hxa; by rewrite <- app_assoc|].
  split; intros ->; (split; [reflexivity|]).
  - apply pass_line_origin.
  - apply fail_line_origin.
Qed.

(** ** The keyboard *)

(** C7.  The restart key prints its two lines and changes nothing else:
    no slot, not the flag, not the count, not the timer, and the task list
    is as it was. *)
Theorem C7_restart_prints_only (s : system) :
  let s' := vIntegerKeyboardInterruptHandler mainRESTART_KEY s in
  step (KeyPressed mainRESTART_KEY) s = Some s'
  /\ console s' = console s ++ [restart_line; restart_note]
  /\ xTaskCheck s' = xTaskCheck s
  /\ xPerformStatusCheck s' = xPerformStatusCheck s
  /\ ulStatusCheckCount s' = ulStatusCheckCount s
  /\ xMonitorTimer s' = xMonitorTimer s
  /\ tasks s' = tasks s.
Proof.
  intros s'. split; [reflexivity|].
  split; [|by repeat split].
  subst s'. unfold vIntegerKeyboardInterruptHandler.
  rewrite decide_False by discriminate. rewrite decide_True by reflexivity.
  fields. by rewrite <- app_assoc.
Qed.

(** ** The integer maths task, turn by turn *)

Lemma calculation_preserved ctx :
  preserves_partial_value ctx -> calculation ctx = intgEXPECTED_ANSWER.
Proof. intros H. unfold calculation. rewrite H. reflexivity. Qed.

(** A turn whose calculation goes wrong sets the error and writes nothing. *)
Lemma turn_diverges ctx l s :
  calculation ctx <> intgEXPECTED_ANSWER ->
  vCompeteingIntMathTask ctx l s
  = Some ({| sError := pdTRUE; pxTaskHasExecuted := pxTaskHasExecuted l |}, s).
Proof.
  intros Hne. unfold vCompeteingIntMathTask. cbv zeta.
  destruct (decide (calculation ctx <> intgEXPECTED_ANSWER)); [|done].
  by destruct (decide (pdTRUE = pdFALSE)).
Qed.

(** A turn taken with the error set keeps it set and writes nothing. *)
Lemma turn_in_error ctx l s :
  sError l <> pdFALSE ->
  exists l', vCompeteingIntMathTask ctx l s = Some (l', s)
    /\ sError l' <> pdFALSE
    /\ pxTaskHasExecuted l' = pxTaskHasExecuted l.
Proof.
  intros Herr. unfold vCompeteingIntMathTask. cbv zeta.
  destruct (decide (calculation ctx <> intgEXPECTED_ANSWER)).
  - destruct (decide (pdTRUE = pdFALSE)); [done|].
    eexists. split; [done|]. split; [discriminate | done].
  - destruct (decide (sError l = pdFALSE)); [done|].
    eexists. by split.
Qed.

(** A turn without error and with the right value signals. *)
Lemma turn_signals ctx l s :
  sError l = pdFALSE -> calculation ctx = intgEXPECTED_ANSWER ->
  (pxTaskHasExecuted l < length (xTaskCheck s))%nat ->
  vCompeteingIntMathTask ctx l s
  = Some (l, set_xTaskCheck (<[pxTaskHasExecuted l := pdTRUE]> (xTaskCheck s)) s).
Proof.
  intros Herr Hcalc Hlt. unfold vCompeteingIntMathTask. cbv zeta.
  destruct (decide (calculation ctx <> intgEXPECTED_ANSWER)); [done|].
  destruct (decide (sError l = pdFALSE)); [|done].
  rewrite signal_Some by done. simpl. destruct l. simpl in *. by subst.
Qed.

Lemma turn_tasks ctx l s l' s' :
  vCompeteingIntMathTask ctx l s = Some (l', s') ->
  tasks s' = tasks s /\ pxTaskHasExecuted l' = pxTaskHasExecuted l.
Proof.
  unfold vCompeteingIntMathTask. cbv zeta. intros H.
  destruct (decide (_ = pdFALSE)).
  - destruct (signal _ s) as [s1|] eqn:Hsig; [|done]. simpl in H.
    injection H as <- <-. apply signal_inv in Hsig as [_ ->]. done.
  - injection H as <- <-. done.
Qed.

(** A step of the program keeps an integer maths task that is in error in
    error, with its slot. *)
Lemma step_keeps_error e s s' t slot :
  int_math_task t slot true s -> step e s = Some s' ->
  int_math_task t slot true s'.
Proof.
  intros (tk & l & Hlk & Hloc & Hslot & Herr) Hstep.
  apply bool_decide_eq_true in Herr.
  destruct e as [t' ctx| |key]; simpl in Hstep.
  - unfold run_task in Hstep.
    destruct (tasks s !! t') as [tk'|] eqn:Hlk'; [|done]. simpl in Hstep.
    destruct (decide (t' = t)) as [->|Hne].
    + rewrite Hlk in Hlk'. injection Hlk' as <-. rewrite Hloc in Hstep.
      destruct (turn_in_error ctx l s Herr) as (l' & Hturn & Herr' & Hslot').
      rewrite Hturn in Hstep. simpl in Hstep. injection Hstep as <-.
      exists (set_locals (IntMathLocals l') tk), l'.
      unfold store_locals. fields. split.
      { apply list_lookup_insert_eq. by eapply lookup_lt_Some. }
      split; [done|]. split; [congruence|]. by apply bool_decide_eq_true.
    + assert (tasks s' !! t = Some tk) as Hlk1.
      { destruct (locals tk') as [l0|m0].
        - destruct (vCompeteingIntMathTask ctx l0 s) as [[l1 s1]|] eqn:Hturn; [|done].
          simpl in Hstep. injection Hstep as <-.
          apply turn_tasks in Hturn as [Ht _].
          unfold store_locals. fields. rewrite list_lookup_insert_ne by done.
          by rewrite Ht.
        - destruct (prvMonitorTask m0 s) as [[m1 s1]|] eqn:Hmon; [|done].
          simpl in Hstep. injection Hstep as <-.
          apply prvMonitorTask_tasks in Hmon.
          unfold store_locals. fields. rewrite list_lookup_insert_ne by done.
          by rewrite Hmon. }
      exists tk, l. repeat split; try done. by apply bool_decide_eq_true.
  - injection Hstep as <-. exists tk, l. repeat split; try done.
    by apply bool_decide_eq_true.
  - injection Hstep as <-. exists tk, l.
    assert (tasks (vIntegerKeyboardInterruptHandler key s) = tasks s) as ->.
    { unfold vIntegerKeyboardInterruptHandler. by repeat case_decide. }
    repeat split; try done. by apply bool_decide_eq_true.
Qed.

Lemma run_keeps_error tr s s' t slot :
  int_math_task t slot true s -> run tr s = Some s' ->
  int_math_task t slot true s'.
Proof.
  revert s. induction tr as [|e tr IH]; intros s Hinv Hrun; simpl in Hrun.
  - by injection Hrun as <-.
  - destruct (step e s) as [s1|] eqn:Hstep; [|done]. simpl in Hrun.
    eapply IH; [|done]. by eapply step_keeps_error.
Qed.

(** The turn of a task that is in error leaves the shared state alone. *)
Lemma step_in_error t slot ctx s :
  int_math_task t slot true s ->
  exists s', step (RunTask t ctx) s = Some s'
    /\ xTaskCheck s' = xTaskCheck s
    /\ xPerformStatusCheck s' = xPerformStatusCheck s
    /\ ulStatusCheckCount s' = ulStatusCheckCount s
    /\ console s' = console s
    /\ int_math_task t slot true s'.
Proof.
  intros Hinv.
  pose proof Hinv as (tk & l & Hlk & Hloc & Hslot & Herr).
  apply bool_decide_eq_true in Herr.
  destruct (turn_in_error ctx l s Herr) as (l' & Hturn & Herr' & Hslot').
  assert (step (RunTask t ctx) s = Some (store_locals t tk (IntMathLocals l') s)) as Hstep.
  { simpl. unfold run_task. rewrite Hlk. simpl. rewrite Hloc, Hturn. done. }
  eexists. split; [exact Hstep|].
  do 4 (split; [reflexivity|]).
  by eapply step_keeps_error.
Qed.

(** C2.  A turn of an integer maths task whose calculation does not give
    the expected answer writes nothing into the registry, and from then on,
    whatever else happens in between and whatever the later calculations
    give (the expected answer included), no turn of that task writes into
    the registry: the task stays in error. *)
Theorem C2_error_latches
    (s : system) (t : nat) (tk : task) (l : int_math_locals) (ctx : Z -> Z) :
  tasks s !! t = Some tk -> locals tk = IntMathLocals l ->
  calculation ctx <> intgEXPECTED_ANSWER ->
  exists s1,
    step (RunTask t ctx) s = Some s1
    /\ xTaskCheck s1 = xTaskCheck s
    /\ forall (tr : list event) (s2 : system) (ctx' : Z -> Z),
         run tr s1 = Some s2 ->
         exists s3,
           step (RunTask t ctx') s2 = Some s3
           /\ xTaskCheck s3 = xTaskCheck s2
           /\ int_math_task t (pxTaskHasExecuted l) true s3.
Proof.
  intros Hlk Hloc Hne.
  exists (store_locals t tk
            (IntMathLocals {| sError := pdTRUE;
                              pxTaskHasExecuted := pxTaskHasExecuted l |}) s).
  split.
  { simpl. unfold run_task. rewrite Hlk. simpl.
    rewrite Hloc, turn_diverges by done. done. }
  split; [reflexivity|].
  intros tr s2 ctx' Hrun.
  assert (int_math_task t (pxTaskHasExecuted l) true s2) as Hinv.
  { eapply run_keeps_error; [|exact Hrun].
    eexists _, _. unfold store_locals. fields. split.
    { apply list_lookup_insert_eq. by eapply lookup_lt_Some. }
    repeat split. }
  destruct (step_in_error t _ ctx' s2 Hinv) as (s3 & Hstep & Hchk & _ & _ & _ & Hinv3).
  by exists s3.
Qed.

Lemma C2_error_latches_witness :
  exists s1,
    step (RunTask 0 (fun _ => 0)) (main_integer boot) = Some s1
    /\ xTaskCheck s1 = xTaskCheck (main_integer boot)
    /\ forall (tr : list event) (s2 : system),
         run tr s1 = Some s2 ->
         exists s3, step (RunTask 0 id) s2 = Some s3
                    /\ xTaskCheck s3 = xTaskCheck s2.
Proof.
  destruct (C2_error_latches (main_integer boot) 0
              {| pcName := "IntMath"; uxPriority := mainINTEGER_TASK_PRIORITY;
                 locals := IntMathLocals {| sError := pdFALSE; pxTaskHasExecuted := 0 |} |}
              {| sError := pdFALSE; pxTaskHasExecuted := 0 |} (fun _ => 0))
    as (s1 & Hstep & Hchk & Hlater).
  - reflexivity.
  - reflexivity.
  - vm_compute. discriminate.
  - exists s1. split; [exact Hstep|]. split; [exact Hchk|].
    intros tr s2 Hrun. destruct (Hlater tr s2 id Hrun) as (s3 & H3 & Hc3 & _).
    exists s3. split; [exact H3 | exact Hc3].
Defined.

(** ** Runs without corruption *)

Lemma main_integer_tasks :
  tasks (main_integer boot)
  = [ {| pcName := "IntMath"; uxPriority := mainINTEGER_TASK_PRIORITY;
         locals := IntMathLocals {| sError := pdFALSE; pxTaskHasExecuted := 0 |} |};
      {| pcName := "Monitor"; uxPriority := mainMONITOR_TASK_PRIORITY;
         locals := monitor_at AwaitRequest 0 |} ].
Proof. reflexivity. Qed.

Lemma healthy_main_integer : healthy (main_integer boot).
Proof.
  split; [reflexivity|].
  intros t tk l Hlk Hloc. rewrite main_integer_tasks in Hlk.
  destruct t as [|[|t]]; simpl in Hlk; [| |done].
  - injection Hlk as <-. simpl in Hloc. injection Hloc as <-.
    split; [reflexivity|]. unfold intgNUMBER_OF_TASKS. simpl. lia.
  - injection Hlk as <-. discriminate.
Qed.

(** With the registry in place the monitor can always take its step. *)
Lemma prvMonitorTask_progress m s :
  registry_ok s ->
  exists m' s', prvMonitorTask m s = Some (m', s')
    /\ registry_ok s' /\ tasks s' = tasks s.
Proof.
  intros Hok. unfold prvMonitorTask. destruct (pc m).
  - destruct (decide _); eexists _, _; by split.
  - eexists _, _. by split.
  - rewrite check_spec by done. eexists _, _. split; [done|].
    split; [apply registry_ok_cleared | done].
  - eexists _, _. split; [done|]. by destruct (decide _).
Qed.

Lemma step_healthy e s :
  healthy s -> uncorrupted e -> scheduled (length (tasks s)) e ->
  exists s', step e s = Some s' /\ healthy s'
    /\ length (tasks s') = length (tasks s).
Proof.
  intros [Hok Hh] Hunc Hsch. destruct e as [t ctx| |key]; simpl in *.
  - destruct (lookup_lt_is_Some_2 _ _ Hsch) as [tk Hlk].
    unfold run_task. rewrite Hlk. simpl.
    destruct (locals tk) as [l|m] eqn:Hloc.
    + destruct (Hh t tk l Hlk Hloc) as [Herr Hslot].
      rewrite turn_signals;
        [|done|by apply calculation_preserved|by rewrite Hok].
      simpl. eexists. split; [done|].
      unfold store_locals. fields. split; [|by rewrite length_insert].
      split.
      { unfold registry_ok. fields. by rewrite length_insert. }
      fields. intros t0 tk0 l0 Hlk0 Hloc0.
      destruct (decide (t0 = t)) as [->|Hne].
      * rewrite list_lookup_insert_eq in Hlk0 by done.
        injection Hlk0 as <-. simpl in Hloc0. injection Hloc0 as <-. done.
      * rewrite list_lookup_insert_ne in Hlk0 by done. by eapply Hh.
    + destruct (prvMonitorTask_progress m s Hok) as (m' & s1 & -> & Hok1 & Ht1).
      simpl. eexists. split; [done|].
      unfold store_locals. fields. split; [|by rewrite length_insert, Ht1].
      split; [exact Hok1|].
      fields. intros t0 tk0 l0 Hlk0 Hloc0.
      destruct (decide (t0 = t)) as [->|Hne].
      * rewrite list_lookup_insert_eq in Hlk0 by (by rewrite Ht1).
        injection Hlk0 as <-. discriminate.
      * rewrite list_lookup_insert_ne in Hlk0 by done.
        rewrite Ht1 in Hlk0. by eapply Hh.
  - eexists. split; [done|]. by split.
  - eexists. split; [done|].
    unfold vIntegerKeyboardInterruptHandler.
    repeat case_decide; by split.
Qed.

Lemma run_healthy tr s :
  healthy s -> Forall uncorrupted tr -> Forall (scheduled (length (tasks s))) tr ->
  exists s', run tr s = Some s' /\ healthy s'.
Proof.
  revert s. induction tr as [|e tr IH]; intros s Hh Hunc Hsch; simpl.
  - by exists s.
  - apply Forall_cons in Hunc as [Hu Hunc]. apply Forall_cons in Hsch as [Hs Hsch].
    destruct (step_healthy e s Hh Hu Hs) as (s1 & -> & Hh1 & Hlen).
    simpl. apply IH; [done..|]. by rewrite Hlen.
Qed.

(** C10.  A context switch that preserves the partial value makes the
    calculation give the expected answer.  In a run from start-up in which
    every context switch does so, every step can be taken, no integer maths
    task is ever in error, and the next turn of such a task writes [pdTRUE]
    into its slot and leaves the task without error; every turn of the run
    is such a next turn of a shorter run. *)
Theorem C10_uncorrupted_run (tr : list event) :
  Forall uncorrupted tr ->
  Forall (scheduled (length (tasks (main_integer boot)))) tr ->
  (forall ctx, preserves_partial_value ctx -> calculation ctx = intgEXPECTED_ANSWER)
  /\ exists s,
      run tr (main_integer boot) = Some s
      /\ (forall t tk l, tasks s !! t = Some tk -> locals tk = IntMathLocals l ->
            sError l = pdFALSE)
      /\ (forall t tk l ctx,
            tasks s !! t = Some tk -> locals tk = IntMathLocals l ->
            preserves_partial_value ctx ->
            exists s',
              step (RunTask t ctx) s = Some s'
              /\ xTaskCheck s' !! pxTaskHasExecuted l = Some pdTRUE
              /\ int_math_task t (pxTaskHasExecuted l) false s').
Proof.
  intros Hunc Hsch. split; [exact calculation_preserved|].
  destruct (run_healthy tr _ healthy_main_integer Hunc Hsch) as (s & Hrun & Hok & Hh).
  exists s. split; [done|]. split.
  { intros t tk l Hlk Hloc. by destruct (Hh t tk l Hlk Hloc). }
  intros t tk l ctx Hlk Hloc Hctx.
  destruct (Hh t tk l Hlk Hloc) as [Herr Hslot].
  eexists. split.
  { simpl. unfold run_task. rewrite Hlk. simpl. rewrite Hloc.
    rewrite turn_signals;
      [|done|by apply calculation_preserved|by rewrite Hok].
    done. }
  unfold store_locals. fields. split.
  { apply list_lookup_insert_eq. by rewrite Hok. }
  eexists _, _. split.
  { apply list_lookup_insert_eq. by eapply lookup_lt_Some. }
  split; [done|]. split; [done|].
  apply bool_decide_eq_false. by intros ?.
Qed.

Lemma C10_uncorrupted_run_witness :
  exists s,
    run [RunTask 0 id; TimerExpired; RunTask 1 id; RunTask 0 id] (main_integer boot)
    = Some s.
Proof.
  destruct (C10_uncorrupted_run [RunTask 0 id; TimerExpired; RunTask 1 id; RunTask 0 id])
    as (_ & s & Hrun & _).
  - repeat constructor.
  - repeat constructor; simpl; lia.
  - exists s. exact Hrun.
Defined.

(** ** The counter over a whole run *)

Lemma uint32_succ_uint32 z : uint32 (uint32 z + 1) = uint32 (z + 1).
Proof. unfold uint32. by rewrite Zplus_mod_idemp_l. Qed.

(** One round of timer and monitor advances the count once and leaves the
    monitor polling. *)
Lemma check_cycle_counts s :
  registry_ok s -> monitor_task 1 AwaitRequest s ->
  exists s', run check_cycle s = Some s'
    /\ registry_ok s' /\ monitor_task 1 AwaitRequest s'
    /\ ulStatusCheckCount s' = uint32 (ulStatusCheckCount s + 1).
Proof.
  intros Hok (tk & m & Hlk & Hloc & Hpc).
  destruct (request_step TimerExpired s) as (sa & Ha & Hfa & _ & Hxa & Hna & Hta);
    [by left|].
  destruct (monitor_finishes 1 id 4 sa tk m)
    as (s' & Hrun & Hn' & _ & _ & Hx' & _ & Hm'); [| |done| |].
  { unfold registry_ok. by rewrite Hxa. }
  { by rewrite Hta. }
  { left. split; [done|]. split; [|lia]. rewrite Hfa. discriminate. }
  exists s'. unfold check_cycle. cbn [run]. rewrite Ha. cbn [mbind option_bind].
  split; [done|]. split.
  { unfold registry_ok. rewrite Hx'. apply length_replicate. }
  split; [done|]. by rewrite Hn', Hna.
Qed.

(** After [n] rounds from start-up the count is [n] modulo 2^32. *)
Lemma check_cycles_count (n : nat) :
  exists s, run (check_cycles n) (main_integer boot) = Some s
    /\ registry_ok s /\ monitor_task 1 AwaitRequest s
    /\ ulStatusCheckCount s = uint32 (Z.of_nat n).
Proof.
  induction n as [|n (s & Hrun & Hok & Hmon & Hn)].
  - exists (main_integer boot). split; [done|]. split; [done|]. split; [|done].
    eexists _, _. rewrite main_integer_tasks. by split.
  - destruct (check_cycle_counts s Hok Hmon) as (s' & Hrun' & Hok' & Hmon' & Hn').
    exists s'. cbn [check_cycles]. rewrite run_app, Hrun. cbn [mbind option_bind].
    split; [done|]. split; [done|]. split; [done|].
    rewrite Hn', Hn, uint32_succ_uint32. f_equal. lia.
Qed.

(** The count does come back to 0 in a run from start-up. *)
Lemma count_wraps_in_a_run :
  exists tr s s',
    run tr (main_integer boot) = Some s
    /\ ulStatusCheckCount s = 4294967295
    /\ run check_cycle s = Some s'
    /\ ulStatusCheckCount s' = 0.
Proof.
  destruct (check_cycles_count (Z.to_nat 4294967295)) as (s & Hrun & Hok & Hmon & Hn).
  rewrite Z2Nat.id in Hn by lia.
  destruct (check_cycle_counts s Hok Hmon) as (s' & Hrun' & _ & _ & Hn').
  exists (check_cycles (Z.to_nat 4294967295)), s, s'.
  split; [done|]. split; [by rewrite Hn|]. split; [done|].
  rewrite Hn', Hn. reflexivity.
Qed.

(** * Further properties of the code *)

(** ** Start-up *)

Lemma set_tasks_same s : set_tasks (tasks s) s = s.
Proof. by destruct s. Qed.

(** The loop of [vStartIntegerMathTasks] appends one task for each of the
    slots [sTask], [sTask + 1], ... it still has to serve. *)
Lemma start_loop_spec (todo sTask : nat) (uxPrio : Z) (s : system) :
  start_loop todo sTask uxPrio s
  = set_tasks (tasks s ++ map (fun i => int_math_task_at i uxPrio) (seq sTask todo)) s.
Proof.
  revert sTask s. induction todo as [|todo IH]; intros sTask s; cbn [start_loop seq map].
  - rewrite app_nil_r. by rewrite set_tasks_same.
  - rewrite IH. unfold xTaskCreate, set_tasks. fields.
    by rewrite <- app_assoc.
Qed.

(** X1.  [vStartIntegerMathTasks] keeps the tasks there are and appends
    one task per slot of the registry, in the order of the slots: the
    [i]-th new task is named "IntMath", has the priority asked for, points
    at slot [i] and starts without error.  It changes nothing else. *)
Theorem X1_start_tasks_one_per_slot (uxPrio : Z) (s : system) :
  let s' := vStartIntegerMathTasks uxPrio s in
  length (tasks s') = (length (tasks s) + intgNUMBER_OF_TASKS)%nat
  /\ (forall t, (t < length (tasks s))%nat -> tasks s' !! t = tasks s !! t)
  /\ (forall i, (i < intgNUMBER_OF_TASKS)%nat ->
        tasks s' !! (length (tasks s) + i)%nat = Some (int_math_task_at i uxPrio))
  /\ set_tasks (tasks s) s' = s.
Proof.
  intros s'. subst s'. unfold vStartIntegerMathTasks. rewrite start_loop_spec.
  fields. split; [|split; [|split]].
  - by rewrite length_app, length_map, length_seq.
  - intros t Ht. by apply lookup_app_l.
  - intros i Hi. rewrite lookup_app_r by lia.
    replace (length (tasks s) + i - length (tasks s))%nat with i by lia.
    rewrite list_lookup_fmap, lookup_seq_lt by done. done.
  - unfold set_tasks. fields. by destruct s.
Qed.

Lemma main_integer_with_spec (granted : bool) (s : system) :
  main_integer_with granted s
  = set_xMonitorTimer
      (if granted
       then Some {| pcTimerName := "MonitorTimer";
                    xTimerPeriodMs := mainMONITOR_FREQUENCY_MS;
                    xAutoReload := pdTRUE; xActive := true |}
       else None)
      (set_tasks
         (tasks s
            ++ map (fun i => int_math_task_at i mainINTEGER_TASK_PRIORITY)
                 (seq 0 intgNUMBER_OF_TASKS)
            ++ [monitor_task_at_start])
         (printf banner s)).
Proof.
  unfold main_integer_with. cbv zeta. unfold vStartIntegerMathTasks.
  rewrite start_loop_spec. unfold xTaskCreate, xTimerStart, xTimerCreate. fields.
  unfold set_xMonitorTimer, set_tasks. fields.
  destruct granted; fields; by rewrite <- app_assoc.
Qed.

(** X2.  Started on a system that has the registry and no task yet,
    [main_integer] prints the banner and hands the scheduler a system in
    which task [i] is the integer maths task of slot [i], without error,
    for every slot; the task after them is the monitor, polling, with a
    priority above that of every integer maths task; the flag, the count
    and the slots are as they were.  When [xTimerCreate] returns a timer,
    it is the auto-reload timer of 2000 ms and it is started; when
    [xTimerCreate] returns NULL, [xMonitorTimer] is NULL, no timer is
    started, and the rest is the same. *)
Theorem X2_main_integer_start (timer_granted : bool) (s : system) :
  registry_ok s -> tasks s = [] ->
  let s' := main_integer_with timer_granted s in
  healthy s'
  /\ length (tasks s') = S intgNUMBER_OF_TASKS
  /\ (forall i, (i < intgNUMBER_OF_TASKS)%nat -> int_math_task i i false s')
  /\ monitor_task intgNUMBER_OF_TASKS AwaitRequest s'
  /\ (forall t tk tm l m,
        tasks s' !! t = Some tk -> locals tk = IntMathLocals l ->
        tasks s' !! intgNUMBER_OF_TASKS = Some tm -> locals tm = MonitorLocals m ->
        uxPriority tk < uxPriority tm)
  /\ (timer_granted = true ->
      xMonitorTimer s'
      = Some {| pcTimerName := "MonitorTimer";
                xTimerPeriodMs := mainMONITOR_FREQUENCY_MS;
                xAutoReload := pdTRUE; xActive := true |})
  /\ (timer_granted = false -> xMonitorTimer s' = None)
  /\ set_xMonitorTimer (xMonitorTimer s') (main_integer_with (negb timer_granted) s) = s'
  /\ console s' = console s ++ [banner]
  /\ xTaskCheck s' = xTaskCheck s
  /\ xPerformStatusCheck s' = xPerformStatusCheck s
  /\ ulStatusCheckCount s' = ulStatusCheckCount s.
Proof.
  intros Hok Hno s'. subst s'. rewrite !main_integer_with_spec, Hno.
  unfold set_xMonitorTimer, set_tasks. fields. rewrite app_nil_l.
  set (ws := map _ _).
  assert (length ws = intgNUMBER_OF_TASKS) as Hlen.
  { subst ws. by rewrite length_map, length_seq. }
  assert (forall i, (i < intgNUMBER_OF_TASKS)%nat ->
            (ws ++ [monitor_task_at_start]) !! i
            = Some (int_math_task_at i mainINTEGER_TASK_PRIORITY)) as Hws.
  { intros i Hi. rewrite lookup_app_l by lia. subst ws.
    rewrite list_lookup_fmap, lookup_seq_lt by done. done. }
  assert ((ws ++ [monitor_task_at_start]) !! intgNUMBER_OF_TASKS
          = Some monitor_task_at_start) as Hmon.
  { rewrite lookup_app_r by lia. by rewrite Hlen, Nat.sub_diag. }
  assert (forall t tk l,
            (ws ++ [monitor_task_at_start]) !! t = Some tk ->
            locals tk = IntMathLocals l ->
            (t < intgNUMBER_OF_TASKS)%nat
            /\ tk = int_math_task_at t mainINTEGER_TASK_PRIORITY) as Hinv.
  { intros t tk l Hlk Hloc.
    destruct (decide (t < intgNUMBER_OF_TASKS)%nat) as [Hlt|Hge].
    - split; [done|]. rewrite Hws in Hlk by done. by injection Hlk as <-.
    - exfalso. rewrite lookup_app_r in Hlk by lia.
      destruct (t - length ws)%nat as [|j]; simpl in Hlk; [|done].
      injection Hlk as <-. discriminate. }
  split; [|split; [|split; [|split; [|split; [|split; [|split; [|by repeat split]]]]]]].
  - split; [exact Hok|]. fields. intros t tk l Hlk Hloc.
    destruct (Hinv t tk l Hlk Hloc) as [Hlt ->]. simpl in Hloc.
    injection Hloc as <-. by split.
  - rewrite length_app, Hlen. cbn [length]. lia.
  - intros i Hi. eexists _, _. split; [by apply Hws|]. by repeat split.
  - eexists _, _. split; [exact Hmon|]. by split.
  - intros t tk tm l m Hlk Hloc Hlkm Hlocm.
    destruct (Hinv t tk l Hlk Hloc) as [_ ->].
    rewrite Hmon in Hlkm. injection Hlkm as <-. reflexivity.
  - by intros ->.
  - by intros ->.
Qed.

Lemma X2_main_integer_start_witness :
  healthy (main_integer_with false boot)
  /\ xMonitorTimer (main_integer_with false boot) = None
  /\ monitor_task intgNUMBER_OF_TASKS AwaitRequest (main_integer_with false boot).
Proof.
  destruct (X2_main_integer_start false boot) as (H1 & _ & _ & H4 & _ & _ & H7 & _).
  - reflexivity.
  - reflexivity.
  - split; [exact H1|]. split; [apply H7; reflexivity | exact H4].
Defined.

(** ** What one call can and cannot do *)

Lemma turn_effect ctx l s l' s' :
  vCompeteingIntMathTask ctx l s = Some (l', s') ->
  pxTaskHasExecuted l' = pxTaskHasExecuted l
  /\ (sError l <> pdFALSE -> sError l' <> pdFALSE)
  /\ (s' = s
      \/ (sError l = pdFALSE /\ sError l' = pdFALSE
          /\ calculation ctx = intgEXPECTED_ANSWER
          /\ (pxTaskHasExecuted l < length (xTaskCheck s))%nat
          /\ s' = set_xTaskCheck (<[pxTaskHasExecuted l := pdTRUE]> (xTaskCheck s)) s)).
Proof.
  unfold vCompeteingIntMathTask. cbv zeta. intros H.
  destruct (decide (calculation ctx <> intgEXPECTED_ANSWER)) as [Hne|Heq].
  - destruct (decide (pdTRUE = pdFALSE)); [done|].
    injection H as <- <-. split; [done|]. split; [discriminate|]. by left.
  - destruct (decide (sError l = pdFALSE)) as [Hok|Herr].
    + destruct (signal _ s) as [s1|] eqn:Hsig; [|done]. simpl in H.
      injection H as <- <-. apply signal_inv in Hsig as [Hlt ->].
      split; [done|]. split; [done|]. right.
      repeat split; try done. by apply dec_stable.
    + injection H as <- <-. split; [done|]. split; [done|]. by left.
Qed.

Lemma turn_progress ctx l s :
  (pxTaskHasExecuted l < length (xTaskCheck s))%nat ->
  exists l' s', vCompeteingIntMathTask ctx l s = Some (l', s').
Proof.
  intros Hlt. unfold vCompeteingIntMathTask. cbv zeta.
  destruct (decide (_ = pdFALSE)); [|by eexists _, _].
  rewrite signal_Some by done. by eexists _, _.
Qed.

(** X3.  A turn of an integer maths task can change one thing in the
    shared state, its own slot, and only by writing [pdTRUE] into it: all
    other slots, the size of the registry, the flag, the count, the
    console, the timer and the task list are as before.  The task never
    moves to another slot, and an error, once set, is not cleared by a
    turn. *)
Theorem X3_turn_touches_own_slot_only
    (ctx : Z -> Z) (l l' : int_math_locals) (s s' : system) :
  vCompeteingIntMathTask ctx l s = Some (l', s') ->
  set_xTaskCheck (xTaskCheck s) s' = s
  /\ length (xTaskCheck s') = length (xTaskCheck s)
  /\ (forall i, i <> pxTaskHasExecuted l -> xTaskCheck s' !! i = xTaskCheck s !! i)
  /\ (xTaskCheck s' !! pxTaskHasExecuted l = xTaskCheck s !! pxTaskHasExecuted l
      \/ xTaskCheck s' !! pxTaskHasExecuted l = Some pdTRUE)
  /\ pxTaskHasExecuted l' = pxTaskHasExecuted l
  /\ (sError l <> pdFALSE -> sError l' <> pdFALSE /\ s' = s).
Proof.
  intros H. pose proof H as Hcopy.
  apply turn_effect in H as (Hslot & Hlatch & [ -> | (Hok & _ & _ & Hlt & ->) ]).
  - split; [by destruct s|]. repeat split; auto.
  - fields. split; [by destruct s|]. split; [by rewrite length_insert|].
    split; [intros i Hi; by rewrite list_lookup_insert_ne|].
    split; [right; by apply list_lookup_insert_eq|].
    split; [done|]. intros Herr. by destruct Herr.
Qed.

Lemma X3_turn_touches_own_slot_only_witness :
  xTaskCheck
    (set_xTaskCheck [pdTRUE] (main_integer boot)) !! 0%nat = Some pdFALSE
  \/ xTaskCheck
       (set_xTaskCheck [pdTRUE] (main_integer boot)) !! 0%nat = Some pdTRUE.
Proof.
  destruct (X3_turn_touches_own_slot_only id
              {| sError := pdFALSE; pxTaskHasExecuted := 0 |}
              {| sError := pdFALSE; pxTaskHasExecuted := 0 |}
              (main_integer boot)
              (set_xTaskCheck [pdTRUE] (main_integer boot)))
    as (_ & _ & _ & [H|H] & _).
  - reflexivity.
  - left. exact H.
  - right. exact H.
Defined.

Lemma check_only_slots s r s' :
  xAreIntegerMathsTaskStillRunning s = Some (r, s') ->
  exists chk, check_loop intgNUMBER_OF_TASKS 0 pdTRUE (xTaskCheck s) = Some (r, chk)
              /\ s' = set_xTaskCheck chk s.
Proof.
  unfold xAreIntegerMathsTaskStillRunning. intros H.
  destruct (check_loop _ _ _ _) as [[x chk]|]; [|done].
  simpl in H. injection H as <- <-. by exists chk.
Qed.

(** The loop of the check keeps the size of the array and leaves in each
    slot what was there or [pdFALSE]; it returns what it was given or
    [pdFALSE]. *)
Lemma check_loop_effect (todo sTask : nat) (xReturn : Z) (chk : list Z) r chk' :
  check_loop todo sTask xReturn chk = Some (r, chk') ->
  length chk' = length chk
  /\ (forall i, chk' !! i = chk !! i \/ chk' !! i = Some pdFALSE)
  /\ (r = xReturn \/ r = pdFALSE).
Proof.
  revert sTask xReturn chk. induction todo as [|todo IH];
    intros sTask xReturn chk H; simpl in H.
  - injection H as <- <-. auto.
  - destruct (chk !! sTask) as [v|] eqn:Hv; [|done]. simpl in H.
    apply IH in H as (Hlen & Hslots & Hr).
    rewrite length_insert in Hlen. split; [done|]. split.
    + intros i. destruct (Hslots i) as [Hi|Hi]; [|by right].
      destruct (decide (i = sTask)) as [->|Hne].
      * right. rewrite Hi. apply list_lookup_insert_eq. by eapply lookup_lt_Some.
      * left. rewrite Hi. by apply list_lookup_insert_ne.
    + destruct Hr as [ -> | -> ]; [|by right]. destruct (decide _); auto.
Qed.

Lemma report_line_is_report b n : is_report (report_line b n) = true.
Proof. by destruct b. Qed.

Lemma monitor_effect m s m' s' :
  prvMonitorTask m s = Some (m', s') ->
  (pc m = AwaitRequest /\ s' = s
   /\ ((xPerformStatusCheck s = pdFALSE /\ m' = m)
       \/ (xPerformStatusCheck s <> pdFALSE
           /\ m' = {| pc := ResetFlag; xTasksStatus := xTasksStatus m |})))
  \/ (pc m = ResetFlag /\ s' = set_xPerformStatusCheck pdFALSE s
      /\ m' = {| pc := CheckTasks; xTasksStatus := xTasksStatus m |})
  \/ (pc m = CheckTasks
      /\ exists r, xAreIntegerMathsTaskStillRunning s = Some (r, s')
                   /\ m' = {| pc := Report; xTasksStatus := r |})
  \/ (pc m = Report
      /\ s' = printf (report_line (bool_decide (xTasksStatus m = pdTRUE))
                        (uint32 (ulStatusCheckCount s + 1)))
                (set_ulStatusCheckCount (uint32 (ulStatusCheckCount s + 1)) s)
      /\ m' = {| pc := AwaitRequest; xTasksStatus := xTasksStatus m |}).
Proof.
  unfold prvMonitorTask. intros H. destruct (pc m) eqn:Hpc.
  - left. split; [done|]. destruct (decide _) as [Hf|Hf]; injection H as <- <-.
    + split; [done|]. left. done.
    + split; [done|]. right. done.
  - right. left. injection H as <- <-. done.
  - right. right. left. split; [done|].
    destruct (xAreIntegerMathsTaskStillRunning s) as [[r s1]|]; [|done].
    simpl in H. injection H as <- <-. by exists r.
  - right. right. right. split; [done|]. injection H as <- <-. split; [|done].
    fields. destruct (decide (xTasksStatus m = pdTRUE)) as [He|He].
    + by rewrite bool_decide_eq_true_2.
    + by rewrite bool_decide_eq_false_2.
Qed.

(** X4.  A step of the monitor never sets the flag and never sets a slot:
    the flag is as before or clear, each slot is as before or clear.  It
    leaves the timer and the task list alone.  Either it prints nothing and
    keeps the count, or (from the critical section only) it prints one
    report line and advances the count by one modulo 2^32. *)
Theorem X4_monitor_step_effect (m m' : monitor_locals) (s s' : system) :
  prvMonitorTask m s = Some (m', s') ->
  tasks s' = tasks s
  /\ xMonitorTimer s' = xMonitorTimer s
  /\ (xPerformStatusCheck s' = xPerformStatusCheck s
      \/ xPerformStatusCheck s' = pdFALSE)
  /\ length (xTaskCheck s') = length (xTaskCheck s)
  /\ (forall i, xTaskCheck s' !! i = xTaskCheck s !! i
                \/ xTaskCheck s' !! i = Some pdFALSE)
  /\ ((console s' = console s /\ ulStatusCheckCount s' = ulStatusCheckCount s)
      \/ (pc m = Report
          /\ ulStatusCheckCount s' = uint32 (ulStatusCheckCount s + 1)
          /\ exists line, console s' = console s ++ [line]
                          /\ is_report line = true)).
Proof.
  intros H. apply monitor_effect in H
    as [ (_ & -> & _) | [ (_ & -> & _) | [ (_ & r & Hchk & _) | (Hpc & -> & _) ] ] ].
  - repeat split; auto.
  - fields. repeat split; auto.
  - apply check_only_slots in Hchk as (chk & Hloop & ->).
    apply check_loop_effect in Hloop as (Hlen & Hslots & _).
    fields. repeat split; auto.
  - fields. repeat split; auto. right. split; [done|]. split; [done|].
    eexists. split; [done|]. apply report_line_is_report.
Qed.

Lemma X4_monitor_step_effect_witness :
  tasks (set_xPerformStatusCheck pdFALSE (prvMonitorTimerCallback (main_integer boot)))
  = tasks (prvMonitorTimerCallback (main_integer boot)).
Proof.
  destruct (X4_monitor_step_effect
              {| pc := ResetFlag; xTasksStatus := 0 |}
              {| pc := CheckTasks; xTasksStatus := 0 |}
              (prvMonitorTimerCallback (main_integer boot))
              (set_xPerformStatusCheck pdFALSE
                 (prvMonitorTimerCallback (main_integer boot))))
    as (H & _).
  - reflexivity.
  - exact H.
Defined.

(** X5.  The keyboard handler, for any key: it leaves the slots, the
    count, the timer and the task list alone; the status key prints its
    line and sets the flag; the restart key prints its two lines and keeps
    the flag; every other key, the no-key value among them, changes
    nothing at all. *)
Theorem X5_keyboard_handler_effect (xKeyPressed : Z) (s : system) :
  let s' := vIntegerKeyboardInterruptHandler xKeyPressed s in
  xTaskCheck s' = xTaskCheck s
  /\ ulStatusCheckCount s' = ulStatusCheckCount s
  /\ xMonitorTimer s' = xMonitorTimer s
  /\ tasks s' = tasks s
  /\ (xKeyPressed = mainSTATUS_KEY ->
      xPerformStatusCheck s' = pdTRUE /\ console s' = console s ++ [manual_line])
  /\ (xKeyPressed = mainRESTART_KEY ->
      xPerformStatusCheck s' = xPerformStatusCheck s
      /\ console s' = console s ++ [restart_line; restart_note])
  /\ (xKeyPressed <> mainSTATUS_KEY -> xKeyPressed <> mainRESTART_KEY -> s' = s)
  /\ vIntegerKeyboardInterruptHandler mainNO_KEY_PRESS_VALUE s = s.
Proof.
  intros s'. subst s'. unfold vIntegerKeyboardInterruptHandler.
  destruct (decide (xKeyPressed = mainSTATUS_KEY)) as [->|Hs].
  - fields. repeat split; try done; try (intros Hr; discriminate Hr).
  - destruct (decide (xKeyPressed = mainRESTART_KEY)) as [ -> |Hr].
    + fields. repeat split; try done; by rewrite <- app_assoc.
    + repeat split; done.
Qed.

(** ** What a step of the running program can and cannot do *)

Lemma step_inv e s s' :
  step e s = Some s' ->
  (exists t ctx tk l l' s1,
      e = RunTask t ctx /\ tasks s !! t = Some tk /\ locals tk = IntMathLocals l
      /\ vCompeteingIntMathTask ctx l s = Some (l', s1)
      /\ s' = store_locals t tk (IntMathLocals l') s1)
  \/ (exists t ctx tk m m' s1,
      e = RunTask t ctx /\ tasks s !! t = Some tk /\ locals tk = MonitorLocals m
      /\ prvMonitorTask m s = Some (m', s1)
      /\ s' = store_locals t tk (MonitorLocals m') s1)
  \/ (e = TimerExpired /\ s' = prvMonitorTimerCallback s)
  \/ (exists k, e = KeyPressed k /\ s' = vIntegerKeyboardInterruptHandler k s).
Proof.
  intros H. destruct e as [t ctx| |k]; simpl in H.
  - unfold run_task in H.
    destruct (tasks s !! t) as [tk|] eqn:Hlk; [|done]. simpl in H.
    destruct (locals tk) as [l|m] eqn:Hloc.
    + destruct (vCompeteingIntMathTask ctx l s) as [[l' s1]|] eqn:Hturn; [|done].
      simpl in H. injection H as <-. left. by eexists t, ctx, tk, l, l', s1.
    + destruct (prvMonitorTask m s) as [[m' s1]|] eqn:Hmon; [|done].
      simpl in H. injection H as <-. right. left. by eexists t, ctx, tk, m, m', s1.
  - injection H as <-. right. right. left. done.
  - injection H as <-. right. right. right. by exists k.
Qed.

Lemma handler_frame k s :
  xTaskCheck (vIntegerKeyboardInterruptHandler k s) = xTaskCheck s
  /\ ulStatusCheckCount (vIntegerKeyboardInterruptHandler k s) = ulStatusCheckCount s
  /\ xMonitorTimer (vIntegerKeyboardInterruptHandler k s) = xMonitorTimer s
  /\ tasks (vIntegerKeyboardInterruptHandler k s) = tasks s.
Proof. unfold vIntegerKeyboardInterruptHandler. by repeat case_decide. Qed.

Lemma same_task_refl tk : same_task tk tk.
Proof. unfold same_task. by destruct (locals tk). Qed.

Lemma same_task_trans tk1 tk2 tk3 :
  same_task tk1 tk2 -> same_task tk2 tk3 -> same_task tk1 tk3.
Proof.
  unfold same_task. intros (Hn & Hp & Hl) (Hn' & Hp' & Hl').
  split; [congruence|]. split; [congruence|].
  destruct (locals tk1), (locals tk2), (locals tk3); try done. congruence.
Qed.

(** A step keeps the size of the registry, the timer, the number of tasks
    and what each task is. *)
Lemma step_shape e s s' :
  step e s = Some s' ->
  length (xTaskCheck s') = length (xTaskCheck s)
  /\ xMonitorTimer s' = xMonitorTimer s
  /\ length (tasks s') = length (tasks s)
  /\ forall t tk, tasks s !! t = Some tk ->
       exists tk', tasks s' !! t = Some tk' /\ same_task tk tk'.
Proof.
  intros H. apply step_inv in H
    as [ (t0 & ctx & tk0 & l & l' & s1 & -> & Hlk & Hloc & Hturn & ->)
       | [ (t0 & ctx & tk0 & m & m' & s1 & -> & Hlk & Hloc & Hmon & ->)
         | [ (-> & ->) | (k & -> & ->) ] ] ].
  - pose proof (turn_tasks _ _ _ _ _ Hturn) as [Ht _].
    apply turn_effect in Hturn as (Hslot & _ & Hs1).
    unfold store_locals. fields. rewrite length_insert, Ht.
    assert (length (xTaskCheck s1) = length (xTaskCheck s)
            /\ xMonitorTimer s1 = xMonitorTimer s) as [-> ->].
    { destruct Hs1 as [ -> | (_ & _ & _ & _ & ->) ]; [done|].
      fields. by rewrite length_insert. }
    do 3 (split; [done|]). intros t tk Hlkt.
    destruct (decide (t = t0)) as [ -> |Hne].
    + rewrite Hlk in Hlkt. injection Hlkt as <-.
      eexists. split; [apply list_lookup_insert_eq; by eapply lookup_lt_Some|].
      unfold same_task. simpl. by rewrite Hloc.
    + exists tk. rewrite list_lookup_insert_ne by done.
      split; [done | apply same_task_refl].
  - pose proof (prvMonitorTask_tasks _ _ _ _ Hmon) as Ht.
    assert (length (xTaskCheck s1) = length (xTaskCheck s)
            /\ xMonitorTimer s1 = xMonitorTimer s) as [Hx Htm].
    { apply monitor_effect in Hmon
        as [ (_ & -> & _) | [ (_ & -> & _) | [ (_ & r & Hchk & _) | (_ & -> & _) ] ] ];
        try done.
      apply check_only_slots in Hchk as (chk & Hloop & ->).
      apply check_loop_effect in Hloop as (Hlen & _). done. }
    unfold store_locals. fields. rewrite length_insert, Ht.
    do 3 (split; [done|]). intros t tk Hlkt.
    destruct (decide (t = t0)) as [ -> |Hne].
    + rewrite Hlk in Hlkt. injection Hlkt as <-.
      eexists. split; [apply list_lookup_insert_eq; by eapply lookup_lt_Some|].
      unfold same_task. simpl. by rewrite Hloc.
    + exists tk. rewrite list_lookup_insert_ne by done.
      split; [done | apply same_task_refl].
  - unfold prvMonitorTimerCallback. fields. do 3 (split; [done|]).
    intros t tk Hlkt. exists tk. split; [done | apply same_task_refl].
  - destruct (handler_frame k s) as (-> & _ & -> & ->). do 3 (split; [done|]).
    intros t tk Hlkt. exists tk. split; [done | apply same_task_refl].
Qed.

(** X6.  Once the scheduler runs nothing is created or destroyed: over any
    run the registry keeps its size, the timer is as it was, the number of
    tasks is the same, and each task keeps its name, its priority, its
    function and, for an integer maths task, its slot. *)
Theorem X6_run_keeps_shape (tr : list event) (s s' : system) :
  run tr s = Some s' ->
  length (xTaskCheck s') = length (xTaskCheck s)
  /\ xMonitorTimer s' = xMonitorTimer s
  /\ length (tasks s') = length (tasks s)
  /\ forall t tk, tasks s !! t = Some tk ->
       exists tk', tasks s' !! t = Some tk' /\ same_task tk tk'.
Proof.
  revert s. induction tr as [|e tr IH]; intros s H; simpl in H.
  - injection H as <-. do 3 (split; [done|]).
    intros t tk Hlk. exists tk. split; [done | apply same_task_refl].
  - destruct (step e s) as [s1|] eqn:Hstep; [|done]. simpl in H.
    apply step_shape in Hstep as (Hx & Htm & Hn & Htk).
    apply IH in H as (Hx' & Htm' & Hn' & Htk').
    split; [congruence|]. split; [congruence|]. split; [congruence|].
    intros t tk Hlk. destruct (Htk t tk Hlk) as (tk1 & Hlk1 & Hsame1).
    destruct (Htk' t tk1 Hlk1) as (tk2 & Hlk2 & Hsame2).
    exists tk2. split; [done|]. by eapply same_task_trans.
Qed.

Lemma X6_run_keeps_shape_witness :
  length (tasks (prvMonitorTimerCallback (main_integer boot)))
  = length (tasks (main_integer boot)).
Proof.
  destruct (X6_run_keeps_shape [TimerExpired] (main_integer boot)
              (prvMonitorTimerCallback (main_integer boot)))
    as (_ & _ & H & _).
  - reflexivity.
  - exact H.
Defined.

Lemma step_slots_ok e s :
  slots_ok s -> scheduled (length (tasks s)) e ->
  exists s', step e s = Some s' /\ slots_ok s'
             /\ length (tasks s') = length (tasks s).
Proof.
  intros [Hok Hslots] Hsch.
  assert (exists s', step e s = Some s') as [s' Hstep].
  { destruct e as [t ctx| |k]; simpl in *; [|by eexists..].
    destruct (lookup_lt_is_Some_2 _ _ Hsch) as [tk Hlk].
    unfold run_task. rewrite Hlk. simpl.
    destruct (locals tk) as [l|m] eqn:Hloc.
    - destruct (turn_progress ctx l s) as (l' & s1 & ->).
      { rewrite Hok. by eapply Hslots. }
      by eexists.
    - destruct (prvMonitorTask_progress m s Hok) as (m' & s1 & -> & _).
      by eexists. }
  exists s'. split; [done|].
  apply step_shape in Hstep as (Hx & _ & Hn & Htk).
  split; [|done]. split; [unfold registry_ok in *; congruence|].
  intros t tk' l' Hlk' Hloc'.
  destruct (lookup_lt_is_Some_2 (tasks s) t) as [tk Hlk].
  { rewrite <- Hn. by eapply lookup_lt_Some. }
  destruct (Htk t tk Hlk) as (tk2 & Hlk2 & _ & _ & Hsame).
  rewrite Hlk' in Hlk2. injection Hlk2 as <-. rewrite Hloc' in Hsame.
  destruct (locals tk) as [l|m] eqn:Hloc; [|done].
  rewrite Hsame. by eapply Hslots.
Qed.

(** X7.  With the registry in place and every integer maths task pointing
    into it, the program never reads or writes outside [xTaskCheck]:
    whatever the context switches do to the calculations, every event the
    scheduler, the timer or the keyboard can raise has its step, and the
    state after any run is again of that kind. *)
Theorem X7_run_stays_in_bounds (tr : list event) (s : system) :
  slots_ok s -> Forall (scheduled (length (tasks s))) tr ->
  exists s', run tr s = Some s' /\ slots_ok s'.
Proof.
  revert s. induction tr as [|e tr IH]; intros s Hok Hsch; simpl.
  - by exists s.
  - apply Forall_cons in Hsch as [Hs Hsch].
    destruct (step_slots_ok e s Hok Hs) as (s1 & -> & Hok1 & Hlen).
    simpl. apply IH; [done|]. by rewrite Hlen.
Qed.

Lemma X7_run_stays_in_bounds_witness :
  exists s',
    run [RunTask 0 (fun _ => 0); TimerExpired; RunTask 1 id; RunTask 1 id;
         RunTask 1 id; RunTask 0 id] (main_integer boot) = Some s'
    /\ slots_ok s'.
Proof.
  apply (X7_run_stays_in_bounds
           [RunTask 0 (fun _ => 0); TimerExpired; RunTask 1 id; RunTask 1 id;
            RunTask 1 id; RunTask 0 id] (main_integer boot)).
  - split; [reflexivity|]. intros t tk l Hlk Hloc.
    rewrite main_integer_tasks in Hlk.
    destruct t as [|[|t]]; simpl in Hlk; [| |done].
    + injection Hlk as <-. simpl in Hloc. injection Hloc as <-.
      unfold intgNUMBER_OF_TASKS. simpl. lia.
    + injection Hlk as <-. discriminate.
  - repeat constructor; simpl; lia.
Defined.

(** ** The count and the console *)

Lemma count_reports_app out1 out2 :
  count_reports (out1 ++ out2) = (count_reports out1 + count_reports out2)%nat.
Proof. unfold count_reports. by rewrite List.filter_app, length_app. Qed.

Lemma count_reports_report b n : count_reports [report_line b n] = 1%nat.
Proof. unfold count_reports. simpl. by rewrite report_line_is_report. Qed.

(** A step appends to the console; it either keeps the count and prints no
    report, or advances the count by one modulo 2^32 and prints one. *)
Lemma step_output e s s' :
  step e s = Some s' ->
  exists out, console s' = console s ++ out
    /\ ((ulStatusCheckCount s' = ulStatusCheckCount s /\ count_reports out = 0%nat)
        \/ (ulStatusCheckCount s' = uint32 (ulStatusCheckCount s + 1)
            /\ count_reports out = 1%nat)).
Proof.
  intros H. apply step_inv in H
    as [ (t0 & ctx & tk0 & l & l' & s1 & -> & Hlk & Hloc & Hturn & ->)
       | [ (t0 & ctx & tk0 & m & m' & s1 & -> & Hlk & Hloc & Hmon & ->)
         | [ (-> & ->) | (k & -> & ->) ] ] ].
  - exists []. rewrite app_nil_r. unfold store_locals. fields.
    apply turn_effect in Hturn as (_ & _ & [ -> | (_ & _ & _ & _ & ->) ]);
      split; try done; by left.
  - unfold store_locals. fields.
    apply monitor_effect in Hmon
      as [ (_ & -> & _) | [ (_ & -> & _) | [ (_ & r & Hchk & _) | (_ & -> & _) ] ] ].
    + exists []. rewrite app_nil_r. split; [done|]. by left.
    + exists []. rewrite app_nil_r. split; [done|]. by left.
    + apply check_only_slots in Hchk as (chk & _ & ->).
      exists []. rewrite app_nil_r. split; [done|]. by left.
    + eexists. fields. split; [done|]. right. split; [done|].
      apply count_reports_report.
  - exists []. rewrite app_nil_r. split; [done|]. by left.
  - unfold vIntegerKeyboardInterruptHandler.
    destruct (decide (k = mainSTATUS_KEY)); [|destruct (decide (k = mainRESTART_KEY))].
    + exists [manual_line]. split; [done|]. by left.
    + exists [restart_line; restart_note]. fields.
      split; [by rewrite <- app_assoc|]. by left.
    + exists []. rewrite app_nil_r. split; [done|]. by left.
Qed.

Lemma run_output tr s s' :
  run tr s = Some s' ->
  exists out,
    console s' = console s ++ out
    /\ uint32 (ulStatusCheckCount s')
       = uint32 (ulStatusCheckCount s + Z.of_nat (count_reports out)).
Proof.
  revert s. induction tr as [|e tr IH]; intros s H; simpl in H.
  - injection H as <-. exists []. rewrite app_nil_r. split; [done|].
    f_equal. unfold count_reports. simpl. lia.
  - destruct (step e s) as [s1|] eqn:Hstep; [|done]. simpl in H.
    apply step_output in Hstep as (out1 & Hc1 & Hn1).
    apply IH in H as (out2 & Hc2 & Hn2).
    exists (out1 ++ out2). split; [by rewrite Hc2, Hc1, app_assoc|].
    rewrite Hn2, count_reports_app.
    destruct Hn1 as [[-> ->]|[-> ->]].
    + f_equal; lia.
    + unfold uint32. rewrite Zplus_mod_idemp_l. f_equal; lia.
Qed.

(** X8.  Over any run the console only grows, and the count moves with
    the report lines: it has advanced, modulo 2^32, by the number of report
    lines printed during the run. *)
Theorem X8_count_follows_reports (tr : list event) (s s' : system) :
  run tr s = Some s' ->
  exists out,
    console s' = console s ++ out
    /\ uint32 (ulStatusCheckCount s')
       = uint32 (ulStatusCheckCount s + Z.of_nat (count_reports out)).
Proof. apply run_output. Qed.

Lemma X8_count_follows_reports_witness :
  exists out,
    console (prvMonitorTimerCallback (main_integer boot))
    = console (main_integer boot) ++ out.
Proof.
  destruct (X8_count_follows_reports [TimerExpired] (main_integer boot)
              (prvMonitorTimerCallback (main_integer boot)))
    as (out & H & _).
  - reflexivity.
  - exists out. exact H.
Defined.

Lemma run_count_range tr s s' :
  run tr s = Some s' ->
  0 <= ulStatusCheckCount s < 2 ^ 32 -> 0 <= ulStatusCheckCount s' < 2 ^ 32.
Proof.
  revert s. induction tr as [|e tr IH]; intros s H Hr; simpl in H.
  - by injection H as <-.
  - destruct (step e s) as [s1|] eqn:Hstep; [|done]. simpl in H.
    apply (IH s1 H).
    apply step_output in Hstep as (out & _ & [[-> _]|[-> _]]); [done|].
    apply uint32_range.
Qed.

(** X9.  Started with the count at 0 and no report on the console, as
    [main_integer] starts it, the program keeps the count within 32 bits
    and equal, modulo 2^32, to the number of report lines on the console,
    after any run. *)
Theorem X9_count_is_number_of_reports (tr : list event) (s s' : system) :
  ulStatusCheckCount s = 0 -> count_reports (console s) = 0%nat ->
  run tr s = Some s' ->
  0 <= ulStatusCheckCount s' < 2 ^ 32
  /\ ulStatusCheckCount s' = uint32 (Z.of_nat (count_reports (console s'))).
Proof.
  intros H0 Hc0 Hrun.
  assert (0 <= ulStatusCheckCount s' < 2 ^ 32) as Hr.
  { apply (run_count_range tr s s' Hrun). rewrite H0. lia. }
  split; [done|].
  apply run_output in Hrun as (out & Hc & Hn).
  rewrite Hc, count_reports_app, Hc0. rewrite H0 in Hn.
  rewrite Z.add_0_l in Hn. rewrite Nat.add_0_l.
  rewrite <- Hn. unfold uint32. by rewrite Z.mod_small.
Qed.

Lemma X9_count_is_number_of_reports_witness :
  ulStatusCheckCount (default boot (run check_cycle (main_integer boot)))
  = uint32 (Z.of_nat (count_reports
                        (console (default boot (run check_cycle (main_integer boot)))))).
Proof.
  destruct (X9_count_is_number_of_reports check_cycle (main_integer boot)
              (default boot (run check_cycle (main_integer boot))))
    as [_ H].
  - reflexivity.
  - reflexivity.
  - vm_compute. reflexivity.
  - exact H.
Defined.

(** ** Pass and fail over several steps *)

(** The turn of a task without error, with its partial value preserved,
    sets the task's slot and changes nothing else, the task's own
    variables included. *)
Lemma healthy_turn t i ctx s :
  registry_ok s -> (i < intgNUMBER_OF_TASKS)%nat ->
  int_math_task t i false s -> preserves_partial_value ctx ->
  step (RunTask t ctx) s
  = Some (set_xTaskCheck (<[i := pdTRUE]> (xTaskCheck s)) s).
Proof.
  intros Hok Hi (tk & l & Hlk & Hloc & Hslot & Herr) Hctx.
  apply bool_decide_eq_false in Herr. apply dec_stable in Herr.
  simpl. unfold run_task. rewrite Hlk. simpl. rewrite Hloc.
  rewrite turn_signals;
    [|done|by apply calculation_preserved|by rewrite Hslot, Hok].
  simpl. rewrite Hslot, <- Hloc. by rewrite store_locals_id.
Qed.

(** A series of such turns sets the slots of the tasks that take them and
    keeps the slots that were set. *)
Lemma healthy_turns (ts : list nat) (ctx : Z -> Z) (s : system) :
  registry_ok s -> preserves_partial_value ctx ->
  Forall (fun t => exists i, (i < intgNUMBER_OF_TASKS)%nat
                             /\ int_math_task t i false s) ts ->
  exists s', run (map (fun t => RunTask t ctx) ts) s = Some s'
    /\ registry_ok s'
    /\ set_xTaskCheck (xTaskCheck s) s' = s
    /\ (forall i, xTaskCheck s !! i = Some pdTRUE -> xTaskCheck s' !! i = Some pdTRUE)
    /\ (forall t i, t ∈ ts -> int_math_task t i false s ->
          xTaskCheck s' !! i = Some pdTRUE).
Proof.
  intros Hok Hctx. revert s Hok.
  induction ts as [|t ts IH]; intros s Hok Hall.
  - exists s. split; [done|]. split; [done|]. split; [by destruct s|].
    split; [done|]. intros t i Ht. by apply elem_of_nil in Ht.
  - apply Forall_cons in Hall as [(i0 & Hi0 & Ht0) Hall].
    cbn [map run]. rewrite (healthy_turn t i0 ctx s) by done.
    cbn [mbind option_bind].
    set (s1 := set_xTaskCheck _ s).
    assert (registry_ok s1) as Hok1.
    { subst s1. unfold registry_ok. fields. by rewrite length_insert. }
    destruct (IH s1 Hok1) as (s' & Hrun & Hok' & Hsame & Hkeep & Hset).
    { eapply Forall_impl; [exact Hall|]. intros t' (i & Hi & Ht'). by exists i. }
    exists s'. split; [done|]. split; [done|]. split.
    { clear -Hsame. subst s1. destruct s, s'. unfold set_xTaskCheck in *.
      fields. by injection Hsame as -> -> -> -> ->. }
    assert (xTaskCheck s1 !! i0 = Some pdTRUE) as Hi0set.
    { subst s1. fields. apply list_lookup_insert_eq. by rewrite Hok. }
    split.
    + intros i Hi. apply Hkeep. subst s1. fields.
      destruct (decide (i = i0)) as [ -> |Hne]; [done|].
      by rewrite list_lookup_insert_ne.
    + intros t' i Hin Ht'. apply elem_of_cons in Hin as [ -> |Hin].
      * assert (i = i0) as ->; [|by apply Hkeep].
        destruct Ht' as (tk & l & Hlk & Hloc & Hs & _).
        destruct Ht0 as (tk0 & l0 & Hlk0 & Hloc0 & Hs0 & _).
        rewrite Hlk in Hlk0. injection Hlk0 as <-.
        rewrite Hloc in Hloc0. injection Hloc0 as <-. congruence.
      * by eapply Hset.
Qed.

(** X10.  When no integer maths task has found an error and, since
    whatever happened before, each slot's task takes a turn with its
    partial value preserved, then a request (timer or status key) followed
    by the monitor's four steps prints a PASS line with the new count, and
    leaves every slot clear for the next round. *)
Theorem X10_pass_after_turns
    (s : system) (ts : list nat) (tm : nat) (ctx ctx' : Z -> Z) (req : event) :
  registry_ok s ->
  preserves_partial_value ctx ->
  Forall (fun t => exists i, (i < intgNUMBER_OF_TASKS)%nat
                             /\ int_math_task t i false s) ts ->
  (forall i, (i < intgNUMBER_OF_TASKS)%nat ->
     exists t, t ∈ ts /\ int_math_task t i false s) ->
  monitor_task tm AwaitRequest s ->
  is_request req ->
  exists s',
    run (map (fun t => RunTask t ctx) ts ++ req :: replicate 4 (RunTask tm ctx')) s
      = Some s'
    /\ console s'
       = console s ++ acknowledgement req
           ++ [pass_line (uint32 (ulStatusCheckCount s + 1))]
    /\ ulStatusCheckCount s' = uint32 (ulStatusCheckCount s + 1)
    /\ xTaskCheck s' = replicate intgNUMBER_OF_TASKS pdFALSE.
Proof.
  intros Hok Hctx Hall Hcover (tk & m & Hlk & Hloc & Hpc) Hreq.
  destruct (healthy_turns ts ctx s Hok Hctx Hall)
    as (s1 & Hrun1 & Hok1 & Hsame & _ & Hset).
  assert (all_alive (xTaskCheck s1) = true) as Halive.
  { apply all_alive_Forall, Forall_lookup. intros i v Hv.
    assert (i < intgNUMBER_OF_TASKS)%nat as Hi.
    { apply lookup_lt_Some in Hv. by rewrite Hok1 in Hv. }
    destruct (Hcover i Hi) as (t & Hin & Ht).
    rewrite (Hset t i Hin Ht) in Hv. by injection Hv as <-. }
  assert (tasks s1 = tasks s /\ console s1 = console s
          /\ ulStatusCheckCount s1 = ulStatusCheckCount s) as (Ht1 & Hc1 & Hn1).
  { rewrite <- Hsame. by destruct s1. }
  destruct (request_step req s1 Hreq) as (sa & Ha & Hfa & Hca & Hxa & Hna & Hta).
  destruct (monitor_finishes tm ctx' 4 sa tk m)
    as (s' & Hrun & Hn' & Hc' & _ & Hx' & _); [| |done| |].
  { unfold registry_ok. by rewrite Hxa. }
  { by rewrite Hta, Ht1. }
  { left. split; [done|]. split; [|lia]. rewrite Hfa. discriminate. }
  exists s'. rewrite run_app, Hrun1. cbn [mbind option_bind run].
  rewrite Ha. cbn [mbind option_bind]. split; [done|].
  rewrite Hc', Hn', Hxa, Halive, Hca, Hna, Hc1, Hn1.
  split; [by rewrite <- app_assoc|]. by split.
Qed.

Lemma X10_pass_after_turns_witness :
  exists s',
    run (map (fun t => RunTask t id) [0%nat]
           ++ TimerExpired :: replicate 4 (RunTask 1 id)) (main_integer boot)
      = Some s'
    /\ ulStatusCheckCount s' = 1.
Proof.
  destruct (X10_pass_after_turns (main_integer boot) [0%nat] 1 id id TimerExpired)
    as (s' & Hrun & _ & Hn & _).
  - reflexivity.
  - reflexivity.
  - constructor; [|constructor]. exists 0%nat. split; [unfold intgNUMBER_OF_TASKS; lia|].
    eexists _, _. rewrite main_integer_tasks. by repeat split.
  - intros i Hi. exists 0%nat. split; [by left|].
    assert (i = 0%nat) as -> by (unfold intgNUMBER_OF_TASKS in Hi; lia).
    eexists _, _. rewrite main_integer_tasks. by repeat split.
  - eexists _, _. rewrite main_integer_tasks. by repeat split.
  - by left.
  - exists s'. split; [exact Hrun | exact Hn].
Defined.

(** ** Runs in which every task has failed, and runs without requests *)

Lemma store_locals_lookup t0 tk0 l0 s1 s t tk :
  tasks s1 = tasks s -> tasks s !! t0 = Some tk0 ->
  tasks (store_locals t0 tk0 l0 s1) !! t = Some tk ->
  (t = t0 /\ tk = set_locals l0 tk0) \/ (t <> t0 /\ tasks s !! t = Some tk).
Proof.
  intros Ht Hlk0 Hlk. unfold store_locals in Hlk. fields. rewrite Ht in Hlk.
  destruct (decide (t = t0)) as [ -> |Hne].
  - left. split; [done|].
    rewrite list_lookup_insert_eq in Hlk by (by eapply lookup_lt_Some).
    by injection Hlk as <-.
  - right. split; [done|]. by rewrite list_lookup_insert_ne in Hlk.
Qed.

Lemma all_alive_cleared :
  all_alive (replicate intgNUMBER_OF_TASKS pdFALSE) = false.
Proof. reflexivity. Qed.

(** With every integer maths task in error, the slots clear and no pass
    pending, a step keeps all that and prints no report but a FAIL. *)
Lemma step_failed e s s' :
  registry_ok s -> all_in_error s ->
  xTaskCheck s = replicate intgNUMBER_OF_TASKS pdFALSE -> no_pass_pending s ->
  step e s = Some s' ->
  (registry_ok s' /\ all_in_error s'
   /\ xTaskCheck s' = replicate intgNUMBER_OF_TASKS pdFALSE /\ no_pass_pending s')
  /\ exists out, console s' = console s ++ out
       /\ Forall (fun line => is_report line = true -> exists n, line = fail_line n) out.
Proof.
  intros Hok Herr Hclear Hnp H. apply step_inv in H
    as [ (t0 & ctx & tk0 & l & l' & s1 & -> & Hlk & Hloc & Hturn & ->)
       | [ (t0 & ctx & tk0 & m & m' & s1 & -> & Hlk & Hloc & Hmon & ->)
         | [ (-> & ->) | (k & -> & ->) ] ] ].
  - pose proof (Herr t0 tk0 l Hlk Hloc) as Hl.
    apply turn_effect in Hturn as (_ & Hlatch & [ -> | (Hno & _) ]); [|done].
    split.
    + split; [done|]. split; [|split; [done|]].
      * intros t tk l1 Hlk1 Hloc1.
        apply (store_locals_lookup t0 tk0 _ s s) in Hlk1
          as [ (-> & ->) | (_ & Hlk1) ]; [| |done..].
        -- simpl in Hloc1. injection Hloc1 as <-. by apply Hlatch.
        -- by eapply Herr.
      * intros t tk m1 Hlk1 Hloc1.
        apply (store_locals_lookup t0 tk0 _ s s) in Hlk1
          as [ (-> & ->) | (_ & Hlk1) ]; [| |done..].
        -- discriminate.
        -- by eapply Hnp.
    + exists []. rewrite app_nil_r. split; [done | constructor].
  - pose proof (prvMonitorTask_tasks _ _ _ _ Hmon) as Ht.
    assert ((registry_ok s1 /\ xTaskCheck s1 = replicate intgNUMBER_OF_TASKS pdFALSE)
            /\ (pc m' = Report -> xTasksStatus m' <> pdTRUE)
            /\ exists out, console s1 = console s ++ out
                 /\ Forall (fun line => is_report line = true ->
                                        exists n, line = fail_line n) out)
      as ((Hok1 & Hclear1) & Hm' & Hout).
    { apply monitor_effect in Hmon
        as [ (Hpc & -> & Hm) | [ (_ & -> & ->) | [ (_ & r & Hchk & ->) | (Hpc & -> & ->) ] ] ].
      - split; [done|]. split.
        + destruct Hm as [[_ ->]|[_ ->]]; [by rewrite Hpc | done].
        + exists []. rewrite app_nil_r. split; [done | constructor].
      - split; [done|]. split; [done|].
        exists []. rewrite app_nil_r. split; [done | constructor].
      - rewrite check_spec in Hchk by done. injection Hchk as <- <-.
        split; [split; [apply registry_ok_cleared | done]|]. split.
        + intros _. cbn [xTasksStatus]. rewrite Hclear, all_alive_cleared. discriminate.
        + exists []. rewrite app_nil_r. split; [done | constructor].
      - split; [done|]. split; [done|].
        eexists. split; [reflexivity|]. constructor; [|constructor].
        intros _. rewrite bool_decide_eq_false_2 by (by eapply Hnp). by eexists. }
    split; [|exact Hout].
    split; [done|]. split; [|split; [done|]].
    + intros t tk l1 Hlk1 Hloc1.
      apply (store_locals_lookup t0 tk0 _ s1 s) in Hlk1
        as [ (-> & ->) | (_ & Hlk1) ]; [| |done..].
      * discriminate.
      * by eapply Herr.
    + intros t tk m1 Hlk1 Hloc1.
      apply (store_locals_lookup t0 tk0 _ s1 s) in Hlk1
        as [ (-> & ->) | (_ & Hlk1) ]; [| |done..].
      * simpl in Hloc1. injection Hloc1 as <-. exact Hm'.
      * by eapply Hnp.
  - split; [done|]. exists []. rewrite app_nil_r. split; [done | constructor].
  - destruct (handler_frame k s) as (Hx & _ & _ & Ht).
    split.
    + split; [unfold registry_ok; by rewrite Hx|].
      split; [unfold all_in_error; by rewrite Ht|].
      split; [by rewrite Hx|]. unfold no_pass_pending. by rewrite Ht.
    + unfold vIntegerKeyboardInterruptHandler.
      destruct (decide (k = mainSTATUS_KEY)); [|destruct (decide (k = mainRESTART_KEY))].
      * exists [manual_line]. split; [done|]. by repeat constructor.
      * exists [restart_line; restart_note]. fields.
        split; [by rewrite <- app_assoc|]. by repeat constructor.
      * exists []. rewrite app_nil_r. split; [done | constructor].
Qed.

(** X11.  Once every integer maths task is in error, the slots are clear
    and no pass is left to print, no run brings a pass back: the slots stay
    clear, the tasks stay in error, and every report line printed from then
    on is a FAIL line. *)
Theorem X11_failure_is_permanent (tr : list event) (s s' : system) :
  registry_ok s -> all_in_error s ->
  xTaskCheck s = replicate intgNUMBER_OF_TASKS pdFALSE -> no_pass_pending s ->
  run tr s = Some s' ->
  xTaskCheck s' = replicate intgNUMBER_OF_TASKS pdFALSE
  /\ all_in_error s'
  /\ exists out, console s' = console s ++ out
       /\ Forall (fun line => is_report line = true -> exists n, line = fail_line n) out.
Proof.
  revert s. induction tr as [|e tr IH]; intros s Hok Herr Hclear Hnp H; simpl in H.
  - injection H as <-. split; [done|]. split; [done|].
    exists []. rewrite app_nil_r. split; [done | constructor].
  - destruct (step e s) as [s1|] eqn:Hstep; [|done]. simpl in H.
    destruct (step_failed e s s1 Hok Herr Hclear Hnp Hstep)
      as ((Hok1 & Herr1 & Hclear1 & Hnp1) & out1 & Hc1 & Hout1).
    destruct (IH s1 Hok1 Herr1 Hclear1 Hnp1 H) as (Hclear' & Herr' & out2 & Hc2 & Hout2).
    split; [done|]. split; [done|]. exists (out1 ++ out2).
    split; [by rewrite Hc2, Hc1, app_assoc|]. by apply Forall_app.
Qed.

Lemma X11_failure_is_permanent_witness :
  exists out,
    console (default boot
               (run (RunTask 0 (fun _ => 0) :: check_cycle ++ [RunTask 0 id] ++ check_cycle)
                    (main_integer boot)))
    = console (default boot (run [RunTask 0 (fun _ => 0)] (main_integer boot))) ++ out
    /\ Forall (fun line => is_report line = true -> exists n, line = fail_line n) out.
Proof.
  destruct (X11_failure_is_permanent
              (check_cycle ++ [RunTask 0 id] ++ check_cycle)
              (default boot (run [RunTask 0 (fun _ => 0)] (main_integer boot)))
              (default boot
                 (run (RunTask 0 (fun _ => 0) :: check_cycle ++ [RunTask 0 id] ++ check_cycle)
                      (main_integer boot))))
    as (_ & _ & out & Hc & Hout).
  - reflexivity.
  - intros t tk l Hlk Hloc.
    destruct t as [|[|t]]; simpl in Hlk; [| |done].
    + injection Hlk as <-. simpl in Hloc. injection Hloc as <-. discriminate.
    + injection Hlk as <-. discriminate.
  - reflexivity.
  - intros t tk m Hlk Hloc Hpc.
    destruct t as [|[|t]]; simpl in Hlk; [| |done].
    + injection Hlk as <-. discriminate.
    + injection Hlk as <-. simpl in Hloc. injection Hloc as <-. discriminate.
  - vm_compute. reflexivity.
  - exists out. split; [exact Hc | exact Hout].
Defined.

(** With no request pending and every monitor polling, a step that is not
    a request keeps it so, keeps the count and prints no report. *)
Lemma step_quiet e s s' :
  quiet s -> ~ is_request e -> step e s = Some s' ->
  quiet s' /\ ulStatusCheckCount s' = ulStatusCheckCount s
  /\ exists out, console s' = console s ++ out /\ count_reports out = 0%nat.
Proof.
  intros [Hflag Hmons] Hnr H. apply step_inv in H
    as [ (t0 & ctx & tk0 & l & l' & s1 & -> & Hlk & Hloc & Hturn & ->)
       | [ (t0 & ctx & tk0 & m & m' & s1 & -> & Hlk & Hloc & Hmon & ->)
         | [ (-> & ->) | (k & -> & ->) ] ] ].
  - pose proof (turn_tasks _ _ _ _ _ Hturn) as [Ht _].
    assert (xPerformStatusCheck s1 = pdFALSE
            /\ ulStatusCheckCount s1 = ulStatusCheckCount s
            /\ console s1 = console s) as (Hf1 & Hn1 & Hc1).
    { by apply turn_effect in Hturn as (_ & _ & [ -> | (_ & _ & _ & _ & ->) ]). }
    split; [|split; [done|]].
    + split; [done|]. intros t tk m Hlk1 Hloc1.
      apply (store_locals_lookup t0 tk0 _ s1 s) in Hlk1
        as [ (-> & ->) | (_ & Hlk1) ]; [| |done..].
      * discriminate.
      * by eapply Hmons.
    + exists []. rewrite app_nil_r. by split.
  - pose proof (Hmons t0 tk0 m Hlk Hloc) as Hpc.
    apply monitor_effect in Hmon
      as [ (_ & -> & Hm) | [ (Hpc' & _) | [ (Hpc' & _) | (Hpc' & _) ] ] ];
      [|congruence..].
    destruct Hm as [[_ ->]|[Hf _]]; [|done].
    split; [|split; [done|]].
    + split; [done|]. intros t tk m1 Hlk1 Hloc1.
      apply (store_locals_lookup t0 tk0 _ s s) in Hlk1
        as [ (-> & ->) | (_ & Hlk1) ]; [| |done..].
      * simpl in Hloc1. by injection Hloc1 as <-.
      * by eapply Hmons.
    + exists []. rewrite app_nil_r. by split.
  - exfalso. apply Hnr. by left.
  - assert (k <> mainSTATUS_KEY) as Hk.
    { intros ->. apply Hnr. by right. }
    destruct (handler_frame k s) as (_ & Hn & _ & Ht).
    unfold vIntegerKeyboardInterruptHandler in *.
    destruct (decide (k = mainSTATUS_KEY)); [done|].
    destruct (decide (k = mainRESTART_KEY)).
    + split; [by split|]. split; [done|].
      exists [restart_line; restart_note]. fields.
      split; [by rewrite <- app_assoc | reflexivity].
    + split; [by split|]. split; [done|].
      exists []. rewrite app_nil_r. by split.
Qed.

(** X12.  No check without a request: with the flag clear and every
    monitor polling, a run in which neither the timer expires nor the
    status key is pressed, however long and whatever the tasks and other
    keys do, leaves the flag clear, the monitors polling and the count
    untouched, and prints no report line. *)
Theorem X12_no_check_without_request (tr : list event) (s s' : system) :
  quiet s -> Forall (fun e => ~ is_request e) tr ->
  run tr s = Some s' ->
  quiet s' /\ ulStatusCheckCount s' = ulStatusCheckCount s
  /\ exists out, console s' = console s ++ out /\ count_reports out = 0%nat.
Proof.
  revert s. induction tr as [|e tr IH]; intros s Hq Hnr H; simpl in H.
  - injection H as <-. split; [done|]. split; [done|].
    exists []. rewrite app_nil_r. by split.
  - apply Forall_cons in Hnr as [Hn Hnr].
    destruct (step e s) as [s1|] eqn:Hstep; [|done]. simpl in H.
    destruct (step_quiet e s s1 Hq Hn Hstep) as (Hq1 & Hn1 & out1 & Hc1 & Hr1).
    destruct (IH s1 Hq1 Hnr H) as (Hq' & Hn' & out2 & Hc2 & Hr2).
    split; [done|]. split; [congruence|]. exists (out1 ++ out2).
    split; [by rewrite Hc2, Hc1, app_assoc|].
    by rewrite count_reports_app, Hr1, Hr2.
Qed.

Lemma X12_no_check_without_request_witness :
  ulStatusCheckCount
    (default boot
       (run [RunTask 0 id; RunTask 1 id; KeyPressed mainRESTART_KEY; RunTask 1 id]
            (main_integer boot)))
  = ulStatusCheckCount (main_integer boot).
Proof.
  destruct (X12_no_check_without_request
              [RunTask 0 id; RunTask 1 id; KeyPressed mainRESTART_KEY; RunTask 1 id]
              (main_integer boot)
              (default boot
                 (run [RunTask 0 id; RunTask 1 id; KeyPressed mainRESTART_KEY; RunTask 1 id]
                      (main_integer boot))))
    as (_ & H & _).
  - split; [reflexivity|]. intros t tk m Hlk Hloc.
    rewrite main_integer_tasks in Hlk.
    destruct t as [|[|t]]; simpl in Hlk; [| |done].
    + injection Hlk as <-. discriminate.
    + injection Hlk as <-. simpl in Hloc. by injection Hloc as <-.
  - repeat constructor; intros [H|H]; discriminate H.
  - vm_compute. reflexivity.
  - exact H.
Defined.

(** ** The check with other events between the monitor's steps *)

Lemma step_others_keep t e s s' :
  others t e -> step e s = Some s' -> tasks s' !! t = tasks s !! t.
Proof.
  intros Ho H. apply step_inv in H
    as [ (t0 & ctx & tk0 & l & l' & s1 & -> & Hlk & Hloc & Hturn & ->)
       | [ (t0 & ctx & tk0 & m & m' & s1 & -> & Hlk & Hloc & Hmon & ->)
         | [ (-> & ->) | (k & -> & ->) ] ] ].
  - simpl in Ho. apply turn_tasks in Hturn as [Ht _].
    unfold store_locals. fields. rewrite list_lookup_insert_ne by done. by rewrite Ht.
  - simpl in Ho. apply prvMonitorTask_tasks in Hmon.
    unfold store_locals. fields. rewrite list_lookup_insert_ne by done. by rewrite Hmon.
  - done.
  - by destruct (handler_frame k s) as (_ & _ & _ & ->).
Qed.

(** Events of the others leave task [t] as it is and the registry at its
    size. *)
Lemma run_others_keep t tr s s' :
  Forall (others t) tr -> run tr s = Some s' ->
  tasks s' !! t = tasks s !! t /\ (registry_ok s -> registry_ok s').
Proof.
  revert s. induction tr as [|e tr IH]; intros s Ho H; simpl in H.
  - by injection H as <-.
  - apply Forall_cons in Ho as [He Ho].
    destruct (step e s) as [s1|] eqn:Hstep; [|done]. simpl in H.
    destruct (IH s1 Ho H) as [Ht Hr].
    rewrite Ht, (step_others_keep t e s s1 He Hstep). split; [done|].
    intros Hok. apply Hr. apply step_shape in Hstep as (Hx & _).
    unfold registry_ok in *. congruence.
Qed.

(** A step of the monitor task in the running program. *)
Lemma monitor_step_at t c s tk m m' s1 :
  tasks s !! t = Some tk -> locals tk = MonitorLocals m ->
  prvMonitorTask m s = Some (m', s1) ->
  step (RunTask t c) s = Some (store_locals t tk (MonitorLocals m') s1)
  /\ tasks (store_locals t tk (MonitorLocals m') s1) !! t
     = Some (set_locals (MonitorLocals m') tk).
Proof.
  intros Hlk Hloc Hmon. split.
  - simpl. unfold run_task. rewrite Hlk. simpl. by rewrite Hloc, Hmon.
  - unfold store_locals. fields. apply list_lookup_insert_eq.
    rewrite (prvMonitorTask_tasks _ _ _ _ Hmon). by eapply lookup_lt_Some.
Qed.

(** The critical section of the monitor, from any state: the count
    advances by one modulo 2^32 and one message is printed, a pass exactly
    when [xTasksStatus] is [pdTRUE]. *)
Lemma report_step m s :
  pc m = Report ->
  prvMonitorTask m s
  = Some ({| pc := AwaitRequest; xTasksStatus := xTasksStatus m |},
          printf (report_line (bool_decide (xTasksStatus m = pdTRUE))
                    (uint32 (ulStatusCheckCount s + 1)))
            (set_ulStatusCheckCount (uint32 (ulStatusCheckCount s + 1)) s)).
Proof.
  intros Hpc. unfold prvMonitorTask. rewrite Hpc. fields.
  destruct (decide (xTasksStatus m = pdTRUE)) as [He|He].
  - by rewrite bool_decide_eq_true_2.
  - by rewrite bool_decide_eq_false_2.
Qed.

Lemma of_bool_is_true b : bool_decide (of_bool b = pdTRUE) = b.
Proof. by destruct b. Qed.

(** The four steps by which the monitor consumes a request it has seen,
    with any events of the others before each of the last three. *)
Lemma checking_interleaved
    (s : system) (t : nat) (tk : task) (m : monitor_locals)
    (c0 c1 c2 c3 : Z -> Z) (tr1 tr2 tr3 : list event) (a1 b1 d1 : system) :
  registry_ok s ->
  tasks s !! t = Some tk -> locals tk = MonitorLocals m ->
  pc m = AwaitRequest -> xPerformStatusCheck s <> pdFALSE ->
  Forall (others t) tr1 -> Forall (others t) tr2 -> Forall (others t) tr3 ->
  let a0 := store_locals t tk (monitor_at ResetFlag (xTasksStatus m)) s in
  let a2 := store_locals t tk (monitor_at CheckTasks (xTasksStatus m))
              (set_xPerformStatusCheck pdFALSE a1) in
  let alive := all_alive (xTaskCheck b1) in
  let b2 := store_locals t tk (monitor_at Report (of_bool alive))
              (set_xTaskCheck (replicate intgNUMBER_OF_TASKS pdFALSE) b1) in
  let n := uint32 (ulStatusCheckCount d1 + 1) in
  let d2 := store_locals t tk (monitor_at AwaitRequest (of_bool alive))
              (printf (report_line alive n) (set_ulStatusCheckCount n d1)) in
  run tr1 a0 = Some a1 -> run tr2 a2 = Some b1 -> run tr3 b2 = Some d1 ->
  step (RunTask t c0) s = Some a0
  /\ step (RunTask t c1) a1 = Some a2
  /\ step (RunTask t c2) b1 = Some b2
  /\ step (RunTask t c3) d1 = Some d2.
Proof.
  intros Hok Hlk Hloc Hpc Hflag Ho1 Ho2 Ho3 a0 a2 alive b2 n d2 Hr1 Hr2 Hr3.
  unfold monitor_at in *.
  destruct (monitor_step_at t c0 s tk m _ _ Hlk Hloc (monitor_poll_go m s Hpc Hflag))
    as [H0 Hlk0].
  destruct (run_others_keep t tr1 a0 a1 Ho1 Hr1) as [Ht1 Hok1].
  pose proof (eq_trans Ht1 Hlk0) as Hat1. specialize (Hok1 Hok).
  destruct (monitor_step_at t c1 a1 _ {| pc := ResetFlag; xTasksStatus := xTasksStatus m |}
              {| pc := CheckTasks; xTasksStatus := xTasksStatus m |}
              (set_xPerformStatusCheck pdFALSE a1) Hat1 eq_refl eq_refl)
    as [H1 Hlk1].
  destruct (run_others_keep t tr2 a2 b1 Ho2 Hr2) as [Ht2 Hok2].
  pose proof (eq_trans Ht2 Hlk1) as Hat2. specialize (Hok2 Hok1).
  assert (prvMonitorTask {| pc := CheckTasks; xTasksStatus := xTasksStatus m |} b1
          = Some ({| pc := Report; xTasksStatus := of_bool alive |},
                  set_xTaskCheck (replicate intgNUMBER_OF_TASKS pdFALSE) b1)) as Hchk.
  { unfold prvMonitorTask. cbn [pc]. by rewrite check_spec. }
  destruct (monitor_step_at t c2 b1 _ _ _ _ Hat2 eq_refl Hchk) as [H2 Hlk2].
  destruct (run_others_keep t tr3 b2 d1 Ho3 Hr3) as [Ht3 _].
  pose proof (eq_trans Ht3 Hlk2) as Hat3.
  destruct (monitor_step_at t c3 d1 _ _ _ _ Hat3 eq_refl
              (report_step {| pc := Report; xTasksStatus := of_bool alive |} d1 eq_refl))
    as [H3 _].
  cbn [xTasksStatus] in H3. rewrite of_bool_is_true in H3.
  split; [exact H0|]. split; [exact H1|]. split; [exact H2|]. exact H3.
Qed.

Lemma run_step_then e tr rest s s1 s2 :
  step e s = Some s1 -> run tr s1 = Some s2 ->
  run (e :: tr ++ rest) s = run rest s2.
Proof.
  intros He Htr. cbn [run]. rewrite He. cbn [mbind option_bind].
  by rewrite run_app, Htr.
Qed.

(** C4, as amended.  A check request that the monitor has seen is
    consumed in this order, whatever the other tasks, the timer and the
    keyboard do before each step: the flag is reset; the maths tasks are
    checked once, which clears the slots; the count advances by one modulo
    2^32 (by exactly one below 4294967295, to 0 from there) and one message
    with the new count and the outcome of that check is printed, also when
    a new request has come in meanwhile; the monitor is then back at
    polling the flag. *)
Theorem C4_checking_transition
    (s : system) (t : nat) (tk : task) (m : monitor_locals)
    (c0 c1 c2 c3 : Z -> Z) (tr1 tr2 tr3 : list event) (a1 b1 d1 : system) :
  registry_ok s ->
  tasks s !! t = Some tk -> locals tk = MonitorLocals m ->
  pc m = AwaitRequest -> xPerformStatusCheck s <> pdFALSE ->
  Forall (others t) tr1 -> Forall (others t) tr2 -> Forall (others t) tr3 ->
  let a0 := store_locals t tk (monitor_at ResetFlag (xTasksStatus m)) s in
  let a2 := store_locals t tk (monitor_at CheckTasks (xTasksStatus m))
              (set_xPerformStatusCheck pdFALSE a1) in
  let alive := all_alive (xTaskCheck b1) in
  let b2 := store_locals t tk (monitor_at Report (of_bool alive))
              (set_xTaskCheck (replicate intgNUMBER_OF_TASKS pdFALSE) b1) in
  let n := uint32 (ulStatusCheckCount d1 + 1) in
  let d2 := store_locals t tk (monitor_at AwaitRequest (of_bool alive))
              (printf (report_line alive n) (set_ulStatusCheckCount n d1)) in
  run tr1 a0 = Some a1 -> run tr2 a2 = Some b1 -> run tr3 b2 = Some d1 ->
  step (RunTask t c0) s = Some a0
  /\ step (RunTask t c1) a1 = Some a2
  /\ step (RunTask t c2) b1 = Some b2
  /\ step (RunTask t c3) d1 = Some d2
  /\ run (RunTask t c0 :: tr1 ++ RunTask t c1 :: tr2
            ++ RunTask t c2 :: tr3 ++ [RunTask t c3]) s = Some d2
  /\ (0 <= ulStatusCheckCount d1 < 4294967295 -> n = ulStatusCheckCount d1 + 1)
  /\ (ulStatusCheckCount d1 = 4294967295 -> n = 0).
Proof.
  intros Hok Hlk Hloc Hpc Hflag Ho1 Ho2 Ho3 a0 a2 alive b2 n d2 Hr1 Hr2 Hr3.
  destruct (checking_interleaved s t tk m c0 c1 c2 c3 tr1 tr2 tr3 a1 b1 d1
              Hok Hlk Hloc Hpc Hflag Ho1 Ho2 Ho3 Hr1 Hr2 Hr3)
    as (H0 & H1 & H2 & H3).
  do 4 (split; [assumption|]). split; [|split].
  - rewrite (run_step_then _ _ _ _ _ _ H0 Hr1).
    rewrite (run_step_then _ _ _ _ _ _ H1 Hr2).
    rewrite (run_step_then _ _ _ _ _ _ H2 Hr3).
    cbn [run]. by rewrite H3.
  - intros Hc. subst n. apply uint32_succ_small. lia.
  - intros Hc. subst n. rewrite Hc. reflexivity.
Qed.

Lemma C4_checking_transition_witness :
  exists s',
    run (RunTask 1 id :: [RunTask 0 id] ++ RunTask 1 id :: [KeyPressed mainRESTART_KEY]
           ++ RunTask 1 id :: [TimerExpired] ++ [RunTask 1 id])
        (prvMonitorTimerCallback (main_integer boot)) = Some s'
    /\ ulStatusCheckCount s' = 1
    /\ xPerformStatusCheck s' = pdTRUE.
Proof.
  edestruct (C4_checking_transition
               (prvMonitorTimerCallback (main_integer boot)) 1
               monitor_task_at_start
               {| pc := AwaitRequest; xTasksStatus := 0 |} id id id id
               [RunTask 0 id] [KeyPressed mainRESTART_KEY] [TimerExpired])
    as (_ & _ & _ & _ & H & _).
  - reflexivity.
  - reflexivity.
  - reflexivity.
  - reflexivity.
  - discriminate.
  - repeat constructor. simpl. lia.
  - repeat constructor.
  - repeat constructor.
  - reflexivity.
  - reflexivity.
  - reflexivity.
  - eexists. split; [exact H|]. split; reflexivity.
Defined.

(** C9.  The wording of a report line follows the outcome of the check
    and nothing else.  Whichever request asked for the check (timer or
    status key) and whatever the other tasks, the timer and the keyboard
    do before the monitor's steps, new requests included, the line printed
    is the PASS line that starts "Message received from integer task" when
    the check found every slot set, and the FAIL line that starts "Message
    received from monitor timer" otherwise.  And from any state at all,
    the critical section prints the first when [xTasksStatus] is [pdTRUE]
    and the second when it is not. *)
Theorem C9_origin_follows_result
    (s0 : system) (t : nat) (tk : task) (m : monitor_locals) (req : event)
    (c0 c1 c2 c3 : Z -> Z) (tr0 tr1 tr2 tr3 : list event) (s a1 b1 d1 : system) :
  is_request req -> registry_ok s0 ->
  tasks s0 !! t = Some tk -> locals tk = MonitorLocals m -> pc m = AwaitRequest ->
  Forall (others t) tr0 -> Forall (others t) tr1 ->
  Forall (others t) tr2 -> Forall (others t) tr3 ->
  run (req :: tr0) s0 = Some s -> xPerformStatusCheck s <> pdFALSE ->
  let a0 := store_locals t tk (monitor_at ResetFlag (xTasksStatus m)) s in
  let a2 := store_locals t tk (monitor_at CheckTasks (xTasksStatus m))
              (set_xPerformStatusCheck pdFALSE a1) in
  let alive := all_alive (xTaskCheck b1) in
  let b2 := store_locals t tk (monitor_at Report (of_bool alive))
              (set_xTaskCheck (replicate intgNUMBER_OF_TASKS pdFALSE) b1) in
  let n := uint32 (ulStatusCheckCount d1 + 1) in
  run tr1 a0 = Some a1 -> run tr2 a2 = Some b1 -> run tr3 b2 = Some d1 ->
  (exists line,
      run ((req :: tr0) ++ RunTask t c0 :: tr1 ++ RunTask t c1 :: tr2
             ++ RunTask t c2 :: tr3 ++ [RunTask t c3]) s0
      = Some (store_locals t tk (monitor_at AwaitRequest (of_bool alive))
                (printf line (set_ulStatusCheckCount n d1)))
      /\ (alive = true ->
          line = pass_line n /\ String.prefix origin_integer_task line = true)
      /\ (alive = false ->
          line = fail_line n /\ String.prefix origin_monitor_timer line = true))
  /\ (forall (x : system) (tx : nat) (kx : task) (mx : monitor_locals) (cx : Z -> Z),
        tasks x !! tx = Some kx -> locals kx = MonitorLocals mx -> pc mx = Report ->
        exists line,
          step (RunTask tx cx) x
          = Some (store_locals tx kx (monitor_at AwaitRequest (xTasksStatus mx))
                    (printf line
                       (set_ulStatusCheckCount (uint32 (ulStatusCheckCount x + 1)) x)))
          /\ (xTasksStatus mx = pdTRUE ->
              line = pass_line (uint32 (ulStatusCheckCount x + 1))
              /\ String.prefix origin_integer_task line = true)
          /\ (xTasksStatus mx <> pdTRUE ->
              line = fail_line (uint32 (ulStatusCheckCount x + 1))
              /\ String.prefix origin_monitor_timer line = true)).
Proof.
  intros Hreq Hok0 Hlk0 Hloc Hpc Ho0 Ho1 Ho2 Ho3 Hrun0 Hflag a0 a2 alive b2 n
    Hr1 Hr2 Hr3.
  split.
  - assert (Forall (others t) (req :: tr0)) as Hoq.
    { constructor; [|done]. by destruct Hreq as [ -> | -> ]. }
    destruct (run_others_keep t _ s0 s Hoq Hrun0) as [Ht Hok].
    rewrite Hlk0 in Ht. specialize (Hok Hok0).
    destruct (checking_interleaved s t tk m c0 c1 c2 c3 tr1 tr2 tr3 a1 b1 d1
                Hok Ht Hloc Hpc Hflag Ho1 Ho2 Ho3 Hr1 Hr2 Hr3)
      as (H0 & H1 & H2 & H3).
    exists (report_line alive n). split.
    + rewrite run_app, Hrun0. cbn [mbind option_bind].
      rewrite (run_step_then _ _ _ _ _ _ H0 Hr1).
      rewrite (run_step_then _ _ _ _ _ _ H1 Hr2).
      rewrite (run_step_then _ _ _ _ _ _ H2 Hr3).
      cbn [run]. by rewrite H3.
    + split; intros ->; (split; [reflexivity|]).
      * apply pass_line_origin.
      * apply fail_line_origin.
  - intros x tx kx mx cx Hlkx Hlocx Hpcx.
    destruct (monitor_step_at tx cx x kx mx _ _ Hlkx Hlocx (report_step mx x Hpcx))
      as [Hstep _].
    eexists. split; [exact Hstep|]. split.
    + intros He. rewrite bool_decide_eq_true_2 by done.
      split; [reflexivity | apply pass_line_origin].
    + intros He. rewrite bool_decide_eq_false_2 by done.
      split; [reflexivity | apply fail_line_origin].
Qed.

Lemma C9_origin_follows_result_witness :
  exists s' line,
    run ((KeyPressed mainSTATUS_KEY :: [RunTask 0 id]) ++ RunTask 1 id :: []
           ++ RunTask 1 id :: [] ++ RunTask 1 id :: [TimerExpired] ++ [RunTask 1 id])
        (main_integer boot) = Some s'
    /\ last (console s') = Some line
    /\ String.prefix origin_integer_task line = true.
Proof.
  edestruct (C9_origin_follows_result (main_integer boot) 1
               monitor_task_at_start
               {| pc := AwaitRequest; xTasksStatus := 0 |}
               (KeyPressed mainSTATUS_KEY) id id id id
               [RunTask 0 id] [] [] [TimerExpired])
    as ((line & Hrun & Hpass & _) & _).
  - right. reflexivity.
  - reflexivity.
  - reflexivity.
  - reflexivity.
  - reflexivity.
  - repeat constructor. simpl. lia.
  - constructor.
  - constructor.
  - repeat constructor.
  - reflexivity.
  - discriminate.
  - reflexivity.
  - reflexivity.
  - reflexivity.
  - destruct Hpass as [Hline Hprefix]; [reflexivity|].
    eexists _, line. split; [exact Hrun|]. split; [|exact Hprefix].
    unfold store_locals. fields. apply last_snoc.
Defined.
